(** * Touch gesture recognition of [shared/js/touch-optimizer.js]

    A shallow embedding of the [TouchHandler] object: its two state records
    ([touchState], [gestureState]), the mutable [TouchConfig], the handlers
    of the four touch events, the long-press timer and the events the
    handlers dispatch.

    JavaScript numbers are IEEE 754 binary64 values, so they are modelled by
    Rocq's primitive floats: [Math.sqrt], [Math.abs], the arithmetic and the
    comparisons are the primitive operations ([NaN] compares false with
    everything, as in JavaScript).  [Math.atan2] has no primitive
    counterpart; the development is parametric in it.

    The host is part of the model: the clock read by [Date.now()], the
    timers armed by [setTimeout] and not yet fired or cleared, and the list
    of observable effects (dispatched [CustomEvent]s, vibration requests,
    feedback elements, console output) in the order they happen. *)

From Stdlib Require Import Floats List String Bool PArith ZArith Lia.
Import ListNotations.

Set Warnings "-inexact-float".

Local Open Scope string_scope.
Local Open Scope list_scope.
Local Open Scope float_scope.

(** ** Data *)

(** [TouchConfig]: the fields the handlers read.  [enableConsole] is not a
    key of the literal; [TouchConfig.enableConsole !== false] therefore
    holds until [init] or [updateConfig] merges such a key in. *)
Record Config : Type := mkConfig {
  SWIPE_THRESHOLD : float;
  TAP_THRESHOLD : float;
  LONG_PRESS_DURATION : float;
  ENABLE_HAPTIC_FEEDBACK : bool;
  ENABLE_VISUAL_FEEDBACK : bool;
  ENABLE_PINCH_ZOOM : bool;
  ENABLE_ROTATE : bool;
  enableConsole : bool
}.

Definition TouchConfig : Config :=
  {| SWIPE_THRESHOLD := 30;
     TAP_THRESHOLD := 10;
     LONG_PRESS_DURATION := 500;
     ENABLE_HAPTIC_FEEDBACK := true;
     ENABLE_VISUAL_FEEDBACK := true;
     ENABLE_PINCH_ZOOM := true;
     ENABLE_ROTATE := true;
     enableConsole := true |}.

(** One entry of [event.touches]. *)
Record Touch : Type := mkTouch {
  clientX : float;
  clientY : float
}.

(** A DOM [TouchEvent]: its [touches] list and whether [target] is set. *)
Record TouchEvent : Type := mkTouchEvent {
  touches : list Touch;
  target : bool
}.

(** [TouchHandler.touchState].  [longPressTimer] is [null] ([None]) or the
    handle returned by [setTimeout], a positive integer and hence truthy. *)
Record TouchState : Type := mkTouchState {
  startX : float;
  startY : float;
  startTime : float;
  currentX : float;
  currentY : float;
  isTouching : bool;
  touchCount : nat;
  lastTapTime : float;
  longPressTimer : option positive
}.

(** [TouchHandler.gestureState]. *)
Record GestureState : Type := mkGestureState {
  scale : float;
  rotation : float;
  initialDistance : float;
  initialAngle : float
}.

(** The [data] object handed to [dispatchGestureEvent]. *)
Inductive GestureData : Type :=
| PointData (x y duration : float)
| SwipeData (direction : string)
            (deltaX deltaY distance angle velocity duration : float)
| PinchData (scale centerX centerY : float)
| RotateData (rotation centerX centerY : float).

(** What the handlers do to the outside world. *)
Inductive Effect : Type :=
| GameTouchEvent (type : string) (ts : TouchState) (gs : GestureState)
| GameGestureEvent (gestureType : string) (data : GestureData)
                   (ts : TouchState) (gs : GestureState) (timestamp : float)
| ConsoleLog (gestureType : string) (data : GestureData)
| NavigatorVibrate (duration : float)
| TouchFeedback (x y : float)
| LongPressFeedback (x y : float).

(** A callback armed with [setTimeout(() => this.triggerLongPress(event), d)]
    and neither fired nor cleared yet. *)
Record Timer : Type := mkTimer {
  timerId : positive;
  deadline : float;
  timerEvent : TouchEvent
}.

(** The handler object together with the host it runs in. *)
Record World : Type := mkWorld {
  touchState : TouchState;
  gestureState : GestureState;
  config : Config;
  now : float;
  timers : list Timer;
  nextTimerId : positive;
  effects : list Effect
}.

(** The object literals of [touchState] and [gestureState] (also what
    [reset] stores). *)
Definition initialTouchState : TouchState :=
  {| startX := 0; startY := 0; startTime := 0; currentX := 0; currentY := 0;
     isTouching := false; touchCount := 0%nat; lastTapTime := 0;
     longPressTimer := None |}.

Definition initialGestureState : GestureState :=
  {| scale := 1; rotation := 0; initialDistance := 0; initialAngle := 0 |}.

(** The world right after the script is loaded, with the clock at [t]. *)
Definition initialWorld (t : float) : World :=
  {| touchState := initialTouchState;
     gestureState := initialGestureState;
     config := TouchConfig;
     now := t;
     timers := [];
     nextTimerId := 1%positive;
     effects := [] |}.

(** ** Field assignments *)

Definition set_startX (v : float) (s : TouchState) : TouchState :=
  mkTouchState v (startY s) (startTime s) (currentX s) (currentY s)
    (isTouching s) (touchCount s) (lastTapTime s) (longPressTimer s).
Definition set_startY (v : float) (s : TouchState) : TouchState :=
  mkTouchState (startX s) v (startTime s) (currentX s) (currentY s)
    (isTouching s) (touchCount s) (lastTapTime s) (longPressTimer s).
Definition set_startTime (v : float) (s : TouchState) : TouchState :=
  mkTouchState (startX s) (startY s) v (currentX s) (currentY s)
    (isTouching s) (touchCount s) (lastTapTime s) (longPressTimer s).
Definition set_currentX (v : float) (s : TouchState) : TouchState :=
  mkTouchState (startX s) (startY s) (startTime s) v (currentY s)
    (isTouching s) (touchCount s) (lastTapTime s) (longPressTimer s).
Definition set_currentY (v : float) (s : TouchState) : TouchState :=
  mkTouchState (startX s) (startY s) (startTime s) (currentX s) v
    (isTouching s) (touchCount s) (lastTapTime s) (longPressTimer s).
Definition set_isTouching (v : bool) (s : TouchState) : TouchState :=
  mkTouchState (startX s) (startY s) (startTime s) (currentX s) (currentY s)
    v (touchCount s) (lastTapTime s) (longPressTimer s).
Definition set_touchCount (v : nat) (s : TouchState) : TouchState :=
  mkTouchState (startX s) (startY s) (startTime s) (currentX s) (currentY s)
    (isTouching s) v (lastTapTime s) (longPressTimer s).
Definition set_lastTapTime (v : float) (s : TouchState) : TouchState :=
  mkTouchState (startX s) (startY s) (startTime s) (currentX s) (currentY s)
    (isTouching s) (touchCount s) v (longPressTimer s).
Definition set_longPressTimer (v : option positive) (s : TouchState)
  : TouchState :=
  mkTouchState (startX s) (startY s) (startTime s) (currentX s) (currentY s)
    (isTouching s) (touchCount s) (lastTapTime s) v.

Definition set_scale (v : float) (g : GestureState) : GestureState :=
  mkGestureState v (rotation g) (initialDistance g) (initialAngle g).
Definition set_rotation (v : float) (g : GestureState) : GestureState :=
  mkGestureState (scale g) v (initialDistance g) (initialAngle g).
Definition set_initialDistance (v : float) (g : GestureState) : GestureState :=
  mkGestureState (scale g) (rotation g) v (initialAngle g).
Definition set_initialAngle (v : float) (g : GestureState) : GestureState :=
  mkGestureState (scale g) (rotation g) (initialDistance g) v.

Definition with_touchState (f : TouchState -> TouchState) (w : World) : World :=
  mkWorld (f (touchState w)) (gestureState w) (config w) (now w) (timers w)
    (nextTimerId w) (effects w).
Definition with_gestureState (f : GestureState -> GestureState) (w : World)
  : World :=
  mkWorld (touchState w) (f (gestureState w)) (config w) (now w) (timers w)
    (nextTimerId w) (effects w).
Definition with_now (t : float) (w : World) : World :=
  mkWorld (touchState w) (gestureState w) (config w) t (timers w)
    (nextTimerId w) (effects w).
Definition with_timers (f : list Timer -> list Timer) (w : World) : World :=
  mkWorld (touchState w) (gestureState w) (config w) (now w) (f (timers w))
    (nextTimerId w) (effects w).
Definition with_effect (e : Effect) (w : World) : World :=
  mkWorld (touchState w) (gestureState w) (config w) (now w) (timers w)
    (nextTimerId w) (effects w ++ [e]).

(** ** Statements: state passing with exceptions *)

(** A statement either completes with a value or throws (the only
    exception these handlers can raise is the [TypeError] of reading a
    property of [undefined]); the world at that point is kept either way. *)
Inductive Res (A : Type) : Type :=
| Ret (a : A) (w : World)
| Throw (w : World).
Arguments Ret {A} a w.
Arguments Throw {A} w.

Definition M (A : Type) : Type := World -> Res A.

Definition ret {A : Type} (a : A) : M A := fun w => Ret a w.
Definition throw {A : Type} : M A := fun w => Throw w.
Definition bind {A B : Type} (c : M A) (k : A -> M B) : M B :=
  fun w => match c w with
           | Ret a w' => k a w'
           | Throw w' => Throw w'
           end.

Declare Scope js_scope.
Delimit Scope js_scope with js.
Notation "x <- c ;; k" := (bind c (fun x => k))
  (at level 61, c at next level, right associativity) : js_scope.
Notation "c ;; k" := (bind c (fun _ => k))
  (at level 61, right associativity) : js_scope.
Local Open Scope js_scope.

(** The world a statement leaves behind, thrown or not. *)
Definition world_of {A : Type} (r : Res A) : World :=
  match r with
  | Ret _ w => w
  | Throw w => w
  end.

Definition exec {A : Type} (c : M A) (w : World) : World := world_of (c w).

Definition read {A : Type} (f : World -> A) : M A := fun w => Ret (f w) w.
Definition assign (f : TouchState -> TouchState) : M unit :=
  fun w => Ret tt (with_touchState f w).
Definition assign_gesture (f : GestureState -> GestureState) : M unit :=
  fun w => Ret tt (with_gestureState f w).
Definition emit (e : Effect) : M unit := fun w => Ret tt (with_effect e w).
Definition when (b : bool) (c : M unit) : M unit := if b then c else ret tt.

(** [a[i].p] throws when [a[i]] is [undefined]. *)
Definition item (ev : TouchEvent) (i : nat) : M Touch :=
  match nth_error (touches ev) i with
  | Some t => ret t
  | None => throw
  end.

(** ** Host services *)

(** [Date.now()]: the clock does not advance while one handler runs. *)
Definition Date_now : M float := read now.

(** [setTimeout(() => this.triggerLongPress(event), delay)]: a fresh handle;
    the callback becomes due [delay] milliseconds from now. *)
Definition setTimeout (ev : TouchEvent) (delay : float) : M positive :=
  fun w =>
    let id := nextTimerId w in
    Ret id
      (mkWorld (touchState w) (gestureState w) (config w) (now w)
         (timers w ++ [mkTimer id (now w + delay) ev])
         (Pos.succ id) (effects w)).

Definition keeps (id : positive) (tm : Timer) : bool :=
  negb (Pos.eqb (timerId tm) id).

(** [clearTimeout(id)]. *)
Definition clearTimeout (id : positive) : M unit :=
  fun w => Ret tt (with_timers (filter (keeps id)) w).

Definition clearLongPressTimer : M unit :=
  timer <- read (fun w => longPressTimer (touchState w)) ;;
  match timer with
  | Some id => clearTimeout id ;; assign (set_longPressTimer None)
  | None => ret tt
  end.

(** [Math.PI]. *)
Definition Math_PI : float := 0x1.921fb54442d18p+1.

(** ** The methods of [TouchHandler] *)

Section Handler.

(** [Math.atan2(y, x)], supplied by the host. *)
Variable Math_atan2 : float -> float -> float.

Definition the (f : Config -> bool) : M bool := read (fun w => f (config w)).

(** [vibrate]: the request reaches [navigator.vibrate] when the flag is on. *)
Definition vibrate (duration : float) : M unit :=
  on <- the ENABLE_HAPTIC_FEEDBACK ;;
  if negb on then ret tt else emit (NavigatorVibrate duration).

(** [showTouchFeedback] and [showLongPressFeedback]: the feedback element
    appended to the document (its later removal touches the DOM only). *)
Definition showTouchFeedback (x y : float) : M unit :=
  on <- the ENABLE_VISUAL_FEEDBACK ;;
  if negb on then ret tt else emit (TouchFeedback x y).

Definition showLongPressFeedback (x y : float) : M unit :=
  on <- the ENABLE_VISUAL_FEEDBACK ;;
  if negb on then ret tt else emit (LongPressFeedback x y).

(** [dispatchTouchEvent]: a [game:<type>] event carrying copies of both
    state records, sent to the target of the original event if it has one. *)
Definition dispatchTouchEvent (type : string) (originalEvent : TouchEvent)
  : M unit :=
  ts <- read touchState ;;
  gs <- read gestureState ;;
  when (target originalEvent) (emit (GameTouchEvent type ts gs)).

(** [dispatchGestureEvent]: a [game:gesture:<gestureType>] event sent to the
    document, then the debug line. *)
Definition dispatchGestureEvent (gestureType : string) (data : GestureData)
  : M unit :=
  ts <- read touchState ;;
  gs <- read gestureState ;;
  timestamp <- Date_now ;;
  emit (GameGestureEvent gestureType data ts gs timestamp) ;;
  console <- the enableConsole ;;
  when console (emit (ConsoleLog gestureType data)).

Definition handleMultiTouchStart (event : TouchEvent) : M unit :=
  touch1 <- item event 0 ;;
  touch2 <- item event 1 ;;
  let dx := clientX touch2 - clientX touch1 in
  let dy := clientY touch2 - clientY touch1 in
  assign_gesture (set_initialDistance (sqrt (dx * dx + dy * dy))) ;;
  assign_gesture (set_initialAngle (Math_atan2 dy dx)) ;;
  assign_gesture (set_scale 1) ;;
  assign_gesture (set_rotation 0).

Definition handleMultiTouchMove (event : TouchEvent) : M unit :=
  touch1 <- item event 0 ;;
  touch2 <- item event 1 ;;
  let dx := clientX touch2 - clientX touch1 in
  let dy := clientY touch2 - clientY touch1 in
  let currentDistance := sqrt (dx * dx + dy * dy) in
  let currentAngle := Math_atan2 dy dx in
  d0 <- read (fun w => initialDistance (gestureState w)) ;;
  when (0 <? d0) (assign_gesture (set_scale (currentDistance / d0))) ;;
  rotate <- the ENABLE_ROTATE ;;
  a0 <- read (fun w => initialAngle (gestureState w)) ;;
  when rotate (assign_gesture (set_rotation (currentAngle - a0))) ;;
  s <- read (fun w => scale (gestureState w)) ;;
  dispatchGestureEvent "pinch"
    (PinchData s ((clientX touch1 + clientX touch2) / 2)
                 ((clientY touch1 + clientY touch2) / 2)) ;;
  rotate' <- the ENABLE_ROTATE ;;
  r <- read (fun w => rotation (gestureState w)) ;;
  when rotate'
    (dispatchGestureEvent "rotate"
       (RotateData r ((clientX touch1 + clientX touch2) / 2)
                     ((clientY touch1 + clientY touch2) / 2))).

Definition handleTap (event : TouchEvent) (duration : float) : M unit :=
  currentTime <- Date_now ;;
  last <- read (fun w => lastTapTime (touchState w)) ;;
  let timeSinceLastTap := currentTime - last in
  x <- read (fun w => currentX (touchState w)) ;;
  y <- read (fun w => currentY (touchState w)) ;;
  (if timeSinceLastTap <? 300 then
     dispatchGestureEvent "doubletap" (PointData x y duration) ;;
     assign (set_lastTapTime 0)
   else
     dispatchGestureEvent "tap" (PointData x y duration) ;;
     assign (set_lastTapTime currentTime)) ;;
  haptic <- the ENABLE_HAPTIC_FEEDBACK ;;
  when haptic (vibrate 20).

Definition handleSwipe (event : TouchEvent) (deltaX deltaY distance : float)
  : M unit :=
  let angle := Math_atan2 deltaY deltaX * (180 / Math_PI) in
  t <- Date_now ;;
  t0 <- read (fun w => startTime (touchState w)) ;;
  let duration := t - t0 in
  let velocity := distance / duration in
  let direction :=
    if abs deltaY <? abs deltaX then
      (if 0 <? deltaX then "right" else "left")
    else
      (if 0 <? deltaY then "down" else "up") in
  dispatchGestureEvent "swipe"
    (SwipeData direction deltaX deltaY distance angle velocity duration) ;;
  haptic <- the ENABLE_HAPTIC_FEEDBACK ;;
  when haptic (vibrate 30).

Definition triggerLongPress (event : TouchEvent) : M unit :=
  x <- read (fun w => currentX (touchState w)) ;;
  y <- read (fun w => currentY (touchState w)) ;;
  d <- read (fun w => LONG_PRESS_DURATION (config w)) ;;
  dispatchGestureEvent "longpress" (PointData x y d) ;;
  haptic <- the ENABLE_HAPTIC_FEEDBACK ;;
  when haptic (vibrate 50) ;;
  visual <- the ENABLE_VISUAL_FEEDBACK ;;
  x' <- read (fun w => currentX (touchState w)) ;;
  y' <- read (fun w => currentY (touchState w)) ;;
  when visual (showLongPressFeedback x' y').

Definition handleTouchStart (event : TouchEvent) : M unit :=
  touch <- item event 0 ;;
  assign (set_startX (clientX touch)) ;;
  assign (set_startY (clientY touch)) ;;
  t <- Date_now ;;
  assign (set_startTime t) ;;
  assign (set_currentX (clientX touch)) ;;
  assign (set_currentY (clientY touch)) ;;
  assign (set_isTouching true) ;;
  assign (set_touchCount (List.length (touches event))) ;;
  delay <- read (fun w => LONG_PRESS_DURATION (config w)) ;;
  id <- setTimeout event delay ;;
  assign (set_longPressTimer (Some id)) ;;
  pinch <- the ENABLE_PINCH_ZOOM ;;
  when (Nat.eqb (List.length (touches event)) 2 && pinch)
    (handleMultiTouchStart event) ;;
  haptic <- the ENABLE_HAPTIC_FEEDBACK ;;
  when haptic (vibrate 10) ;;
  visual <- the ENABLE_VISUAL_FEEDBACK ;;
  when visual (showTouchFeedback (clientX touch) (clientY touch)) ;;
  dispatchTouchEvent "touchstart" event.

Definition handleTouchMove (event : TouchEvent) : M unit :=
  touching <- read (fun w => isTouching (touchState w)) ;;
  if negb touching then ret tt else
  touch <- item event 0 ;;
  assign (set_currentX (clientX touch)) ;;
  assign (set_currentY (clientY touch)) ;;
  clearLongPressTimer ;;
  pinch <- the ENABLE_PINCH_ZOOM ;;
  when (Nat.eqb (List.length (touches event)) 2 && pinch)
    (handleMultiTouchMove event) ;;
  dispatchTouchEvent "touchmove" event.

Definition handleTouchEnd (event : TouchEvent) : M unit :=
  touching <- read (fun w => isTouching (touchState w)) ;;
  if negb touching then ret tt else
  endTime <- Date_now ;;
  ts <- read touchState ;;
  let duration := endTime - startTime ts in
  let deltaX := currentX ts - startX ts in
  let deltaY := currentY ts - startY ts in
  let distance := sqrt (deltaX * deltaX + deltaY * deltaY) in
  clearLongPressTimer ;;
  tap <- read (fun w => TAP_THRESHOLD (config w)) ;;
  swipe <- read (fun w => SWIPE_THRESHOLD (config w)) ;;
  (if (distance <? tap) && (duration <? 300) then
     handleTap event duration
   else if (swipe <=? distance) && (duration <? 500) then
     handleSwipe event deltaX deltaY distance
   else ret tt) ;;
  assign (set_isTouching false) ;;
  assign (set_touchCount 0) ;;
  dispatchTouchEvent "touchend" event.

Definition handleTouchCancel (event : TouchEvent) : M unit :=
  clearLongPressTimer ;;
  assign (set_isTouching false) ;;
  assign (set_touchCount 0) ;;
  dispatchTouchEvent "touchcancel" event.

(** ** The host's event loop *)

(** What the host can run: one of the four listeners installed by
    [setupTouchEvents], or the callback of timer [id]. *)
Inductive Task : Type :=
| TouchStart (event : TouchEvent)
| TouchMove (event : TouchEvent)
| TouchEnd (event : TouchEvent)
| TouchCancel (event : TouchEvent)
| Timeout (id : positive).

Definition due (t : float) (id : positive) (tm : Timer) : bool :=
  Pos.eqb (timerId tm) id && (deadline tm <=? t).

(** The host looks at timer [id]: if it is still armed and its deadline has
    passed, it is taken off the list and its callback runs; otherwise
    nothing happens. *)
Definition fireTimer (id : positive) : M unit :=
  t <- Date_now ;;
  pending <- read timers ;;
  match find (due t id) pending with
  | Some tm => clearTimeout id ;; triggerLongPress (timerEvent tm)
  | None => ret tt
  end.

(** One task, run at clock reading [t]. *)
Definition dispatch (t : float) (task : Task) : M unit :=
  (fun w => Ret tt (with_now t w)) ;;
  match task with
  | TouchStart event => handleTouchStart event
  | TouchMove event => handleTouchMove event
  | TouchEnd event => handleTouchEnd event
  | TouchCancel event => handleTouchCancel event
  | Timeout id => fireTimer id
  end.

(** A schedule of tasks; an exception thrown by a listener ends that
    listener only. *)
Fixpoint run (schedule : list (float * Task)) (w : World) : World :=
  match schedule with
  | [] => w
  | (t, task) :: rest => run rest (exec (dispatch t task) w)
  end.

End Handler.

(** ** Configuration and reset *)

(** The argument of [updateConfig]: an object holding some of the keys. *)
Record ConfigPatch : Type := mkConfigPatch {
  patch_SWIPE_THRESHOLD : option float;
  patch_TAP_THRESHOLD : option float;
  patch_LONG_PRESS_DURATION : option float;
  patch_ENABLE_HAPTIC_FEEDBACK : option bool;
  patch_ENABLE_VISUAL_FEEDBACK : option bool;
  patch_ENABLE_PINCH_ZOOM : option bool;
  patch_ENABLE_ROTATE : option bool;
  patch_enableConsole : option bool
}.

Definition or_old {A : Type} (new : option A) (old : A) : A :=
  match new with
  | Some v => v
  | None => old
  end.

(** [Object.assign(TouchConfig, newConfig)]: keys present in [newConfig]
    overwrite, the others stay. *)
Definition Object_assign (c : Config) (p : ConfigPatch) : Config :=
  {| SWIPE_THRESHOLD := or_old (patch_SWIPE_THRESHOLD p) (SWIPE_THRESHOLD c);
     TAP_THRESHOLD := or_old (patch_TAP_THRESHOLD p) (TAP_THRESHOLD c);
     LONG_PRESS_DURATION :=
       or_old (patch_LONG_PRESS_DURATION p) (LONG_PRESS_DURATION c);
     ENABLE_HAPTIC_FEEDBACK :=
       or_old (patch_ENABLE_HAPTIC_FEEDBACK p) (ENABLE_HAPTIC_FEEDBACK c);
     ENABLE_VISUAL_FEEDBACK :=
       or_old (patch_ENABLE_VISUAL_FEEDBACK p) (ENABLE_VISUAL_FEEDBACK c);
     ENABLE_PINCH_ZOOM := or_old (patch_ENABLE_PINCH_ZOOM p) (ENABLE_PINCH_ZOOM c);
     ENABLE_ROTATE := or_old (patch_ENABLE_ROTATE p) (ENABLE_ROTATE c);
     enableConsole := or_old (patch_enableConsole p) (enableConsole c) |}.

Definition getConfig : M Config := read config.

Definition updateConfig (newConfig : ConfigPatch) : M unit :=
  fun w =>
    Ret tt
      (mkWorld (touchState w) (gestureState w)
         (Object_assign (config w) newConfig) (now w) (timers w)
         (nextTimerId w) (effects w)).

(** [reset]: both state records are replaced by fresh literals; no timer
    is cleared. *)
Definition reset : M unit :=
  assign (fun _ => initialTouchState) ;;
  assign_gesture (fun _ => initialGestureState).

(** ** Observations *)

(** The gesture events among the effects: type and [data], in order. *)
Definition gesture_of (e : Effect) : option (string * GestureData) :=
  match e with
  | GameGestureEvent gestureType data _ _ _ => Some (gestureType, data)
  | _ => None
  end.

Fixpoint gestures (l : list Effect) : list (string * GestureData) :=
  match l with
  | [] => []
  | e :: rest =>
      match gesture_of e with
      | Some g => g :: gestures rest
      | None => gestures rest
      end
  end.

Definition named (gestureType : string) (g : string * GestureData) : bool :=
  String.eqb (fst g) gestureType.

(** How many gesture events of one type have been dispatched. *)
Definition fired (gestureType : string) (w : World) : nat :=
  List.length (filter (named gestureType) (gestures (effects w))).

(** The timers still armed under handle [id]. *)
Definition armed (id : positive) (w : World) : list Timer :=
  filter (fun tm => Pos.eqb (timerId tm) id) (timers w).

(** ** Sample inputs *)

(** [Math.atan2] on the half-axes, where ECMAScript fixes its value: the
    sign-preserving zero on the positive x axis and plus or minus a half
    pi on the y axis.  Off the axes this sample yields [NaN]; it is only
    ever evaluated on the axes. *)
Definition atan2_on_axes (y x : float) : float :=
  if (y =? 0) && (0 <? x) then y
  else if (x =? 0) && (0 <? y) then Math_PI / 2
  else if (x =? 0) && (y <? 0) then - (Math_PI / 2)
  else nan.

(** An event with the given contact points and a target element. *)
Definition touchEvent (points : list (float * float)) : TouchEvent :=
  mkTouchEvent (map (fun p => mkTouch (fst p) (snd p)) points) true.

(** The world 100 ms after a first contact went down at (0, 0) with the
    clock at 1000. *)
Definition firstTapDown : World :=
  with_now 1100
    (run atan2_on_axes [(1000, TouchStart (touchEvent [(0, 0)]))]
       (initialWorld 0)).

(** Three taps at (0, 0), each 50 ms long and 50 ms apart, the first one
    starting with the clock at 1000. *)
Definition threeTaps : list (float * Task) :=
  [(1000, TouchStart (touchEvent [(0, 0)]));
   (1050, TouchEnd (touchEvent []));
   (1100, TouchStart (touchEvent [(0, 0)]));
   (1150, TouchEnd (touchEvent []));
   (1200, TouchStart (touchEvent [(0, 0)]));
   (1250, TouchEnd (touchEvent []))].

(** A contact that went down at (0, 0) with the clock at 0 and moved to
    (40, 0) at 50, seen at clock reading 200. *)
Definition swipedRight : World :=
  with_now 200
    (run atan2_on_axes
       [(0, TouchStart (touchEvent [(0, 0)]));
        (50, TouchMove (touchEvent [(40, 0)]))]
       (initialWorld 0)).

(** Two contacts down at (0, 0) and (100, 0), seen at clock reading 50. *)
Definition twoContactsDown : World :=
  with_now 50
    (run atan2_on_axes [(0, TouchStart (touchEvent [(0, 0); (100, 0)]))]
       (initialWorld 0)).

(** One contact down at (0, 0) with the clock at 1000 and held still, seen
    at clock reading 1500. *)
Definition heldToDeadline : World :=
  with_now 1500
    (run atan2_on_axes [(1000, TouchStart (touchEvent [(0, 0)]))]
       (initialWorld 0)).

(** Two contacts down at (5, 5) and (105, 5) with the clock at 10, the
    second one moved to (155, 5) at 50. *)
Definition pinchedApart : World :=
  run atan2_on_axes
    [(10, TouchStart (touchEvent [(5, 5); (105, 5)]));
     (50, TouchMove (touchEvent [(5, 5); (155, 5)]))]
    (initialWorld 0).

(** A contact goes down at (0, 0) with the clock at 1000 and a second one
    at (50, 0) 10 ms later. *)
Definition secondContactDown : list (float * Task) :=
  [(1000, TouchStart (touchEvent [(0, 0)]));
   (1010, TouchStart (touchEvent [(0, 0); (50, 0)]))].

(** The host looking at timers: a list of clock readings and handles. *)
Definition timeouts (l : list (float * positive)) : list (float * Task) :=
  map (fun p => (fst p, Timeout (snd p))) l.

(** The vibration requests and the feedback elements among the effects. *)
Definition is_vibration (e : Effect) : bool :=
  match e with
  | NavigatorVibrate _ => true
  | _ => false
  end.

Definition is_visual (e : Effect) : bool :=
  match e with
  | TouchFeedback _ _ | LongPressFeedback _ _ => true
  | _ => false
  end.

(** ** More sample inputs *)

(** A pinch whose first finger went down 10 ms before the second: one
    contact at 1000, two contacts at 1010, a move at 1020, the end at
    1030. *)
Definition leakingPinch : list (float * Task) :=
  [(1000, TouchStart (touchEvent [(0, 0)]));
   (1010, TouchStart (touchEvent [(0, 0); (50, 0)]));
   (1020, TouchMove (touchEvent [(0, 0); (60, 0)]));
   (1030, TouchEnd (touchEvent []))].

(** A swipe of 200 ms: down at 1400, moved at 1450, up at 1600, with the
    host running timer 1 at 1500. *)
Definition quickSwipe : list (float * Task) :=
  [(1400, TouchStart (touchEvent [(0, 0)]));
   (1450, TouchMove (touchEvent [(40, 0)]));
   (1500, Timeout 1);
   (1600, TouchEnd (touchEvent []))].

(** Both contacts of [secondContactDown] still down, seen at clock reading
    1020. *)
Definition secondContactHeld : World :=
  with_now 1020 (run atan2_on_axes secondContactDown (initialWorld 0)).

(** * Properties *)

(** ** Comparisons of binary64 numbers *)

Lemma SFcompare_Lt_flip (a b : spec_float) :
  SFcompare a b = Some Lt -> SFcompare b a = Some Gt.
Proof.
  destruct a as [sa|sa| |sa ma ea], b as [sb|sb| |sb mb eb]; simpl;
    try discriminate; try (destruct sa; discriminate);
    try (destruct sb; discriminate);
    try (destruct sa, sb; (discriminate || reflexivity)).
  rewrite (Z.compare_antisym ea eb).
  pose proof (Pos.compare_cont_antisym ma mb Eq) as Hm; simpl in Hm.
  rewrite <- Hm.
  destruct sa, sb; try (discriminate || reflexivity);
    destruct (ea ?= eb)%Z; simpl; try (discriminate || reflexivity);
    destruct (Pos.compare_cont Eq ma mb); simpl; intros H;
    try (discriminate || reflexivity).
Qed.

(** [a < b] excludes [b < a]. *)
Lemma ltb_asym (a b : float) : (a <? b) = true -> (b <? a) = false.
Proof.
  rewrite !FloatAxioms.ltb_spec. unfold SFltb. intros H.
  destruct (SFcompare (Prim2SF a) (Prim2SF b)) as [[| |]|] eqn:E;
    try discriminate.
  rewrite (SFcompare_Lt_flip _ _ E). reflexivity.
Qed.

(** With the default thresholds a swipe-length distance is not tap-length. *)
Lemma leb_30_not_ltb_10 (d : float) : (30 <=? d) = true -> (d <? 10) = false.
Proof.
  rewrite FloatAxioms.leb_spec, FloatAxioms.ltb_spec. unfold SFleb, SFltb.
  change (Prim2SF 30) with (S754_finite false 8444249301319680 (-48)).
  change (Prim2SF 10) with (S754_finite false 5629499534213120 (-49)).
  destruct (Prim2SF d) as [s|s| |s m e]; cbn [SFcompare].
  - discriminate.
  - destruct s; [discriminate | reflexivity].
  - reflexivity.
  - destruct s; [discriminate|].
    destruct (Z.compare_spec (-48) e) as [H|H|H].
    + subst e. intros _. reflexivity.
    + intros _.
      destruct (Z.compare_spec e (-49)) as [H'|H'|H'];
        [lia | lia | reflexivity].
    + discriminate.
Qed.

(** A zero (of either sign) is not positive. *)
Lemma eqb_0_not_pos (d : float) : (d =? 0) = true -> (0 <? d) = false.
Proof.
  rewrite FloatAxioms.eqb_spec, FloatAxioms.ltb_spec. unfold SFeqb, SFltb.
  change (Prim2SF 0) with (S754_zero false).
  destruct (Prim2SF d) as [s|s| |s m e]; cbn [SFcompare];
    try discriminate; try reflexivity; destruct s; discriminate.
Qed.

(** ** Observations of a growing effect list *)

Lemma gestures_app (l1 l2 : list Effect) :
  gestures (l1 ++ l2) = gestures l1 ++ gestures l2.
Proof.
  induction l1 as [|e l1 IH]; simpl; [reflexivity|].
  destruct (gesture_of e); simpl; rewrite IH; reflexivity.
Qed.

Lemma filter_keeps_armed (id : positive) (l : list Timer) :
  filter (fun tm => Pos.eqb (timerId tm) id) (filter (keeps id) l) = [].
Proof.
  induction l as [|tm l IH]; simpl; [reflexivity|].
  unfold keeps at 1. destruct (Pos.eqb (timerId tm) id) eqn:E; simpl.
  - exact IH.
  - rewrite E. exact IH.
Qed.

Lemma find_due_none (t : float) (id : positive) (l : list Timer) :
  filter (fun tm => Pos.eqb (timerId tm) id) l = [] ->
  find (due t id) l = None.
Proof.
  induction l as [|tm l IH]; simpl; [reflexivity|].
  unfold due at 1. destruct (Pos.eqb (timerId tm) id); simpl.
  - discriminate.
  - exact IH.
Qed.

(** Unfolding of the statement combinators. *)
Ltac js_unfold :=
  cbv beta delta
    [dispatch fireTimer handleTouchStart handleTouchMove handleTouchEnd
     handleTouchCancel handleMultiTouchStart handleMultiTouchMove handleTap
     handleSwipe triggerLongPress dispatchGestureEvent dispatchTouchEvent
     vibrate showTouchFeedback showLongPressFeedback reset updateConfig
     getConfig clearLongPressTimer clearTimeout setTimeout the Date_now when
     item emit assign assign_gesture read bind ret throw exec world_of
     with_touchState with_gestureState with_now with_timers with_effect].

(** Case analysis on the next undecided test of the goal. *)
Ltac js_case :=
  match goal with
  | |- context [match ?b with _ => _ end] =>
      lazymatch b with
      | context [match _ with _ => _ end] => fail
      | _ => destruct b eqn:?
      end
  end.

Ltac js_cases := repeat (js_case; cbn).

(** The world and its records split into their fields. *)
Ltac js_world w :=
  let ts := fresh "ts" in
  let gs := fresh "gs" in
  let cfg := fresh "cfg" in
  destruct w as [ts gs cfg ? ? ? ?]; destruct ts, gs, cfg.

(** The gesture events of an effect list that ends in known effects. *)
Ltac js_gestures :=
  cbn; repeat rewrite gestures_app; cbn; repeat rewrite app_nil_r;
  repeat rewrite <- app_assoc; cbn.

(** ** Taps *)

(** C8: when [handleTouchEnd] classifies a double tap it stores 0 in
    [lastTapTime]; when it classifies a tap it stores the clock reading.
    Three quick taps from clock reading 1000 are therefore a tap, a double
    tap and a tap again. *)
Theorem C8_lastTapTime_after_tap
  (Math_atan2 : float -> float -> float) (event : TouchEvent) (w : World) :
  let ts := touchState w in
  let deltaX := currentX ts - startX ts in
  let deltaY := currentY ts - startY ts in
  isTouching ts = true ->
  (sqrt (deltaX * deltaX + deltaY * deltaY) <? TAP_THRESHOLD (config w))
    = true ->
  (now w - startTime ts <? 300) = true ->
  (exists w',
      handleTouchEnd Math_atan2 event w = Ret tt w' /\
      ((now w - lastTapTime ts <? 300) = true ->
       map fst (gestures (effects w')) =
         map fst (gestures (effects w)) ++ ["doubletap"] /\
       lastTapTime (touchState w') = 0) /\
      ((now w - lastTapTime ts <? 300) = false ->
       map fst (gestures (effects w')) =
         map fst (gestures (effects w)) ++ ["tap"] /\
       lastTapTime (touchState w') = now w))
  /\ map fst (gestures (effects (run Math_atan2 threeTaps (initialWorld 0))))
     = ["tap"; "doubletap"; "tap"].
Proof.
  intros ts deltaX deltaY Ht Hd Hdur.
  subst ts deltaX deltaY.
  split; [|reflexivity].
  js_world w. cbn in Ht, Hd, Hdur. subst.
  js_unfold. cbn.
  destruct longPressTimer0; cbn; rewrite Hd, Hdur; cbn.
  all: js_cases.
  all: eexists; split; [reflexivity|].
  all: split; intros Hlast; try discriminate Hlast.
  all: split; [js_gestures; rewrite map_app; reflexivity | reflexivity].
Qed.

Lemma C8_lastTapTime_after_tap_witness :
  isTouching (touchState firstTapDown) = true /\
  exists w',
    handleTouchEnd atan2_on_axes (touchEvent []) firstTapDown = Ret tt w' /\
    lastTapTime (touchState w') = 1100.
Proof.
  split; [reflexivity|].
  destruct (C8_lastTapTime_after_tap atan2_on_axes (touchEvent [])
              firstTapDown eq_refl eq_refl eq_refl)
    as [[w' [Hrun [_ Htap]]] _].
  exists w'. split; [exact Hrun | exact (proj2 (Htap eq_refl))].
Defined.

(** C10: with no session active, [handleTouchMove] and [handleTouchEnd]
    return at once and leave the whole world, effects included, as it
    was. *)
Theorem C10_idle_move_and_end_do_nothing
  (Math_atan2 : float -> float -> float) (event : TouchEvent) (w : World) :
  isTouching (touchState w) = false ->
  handleTouchMove Math_atan2 event w = Ret tt w /\
  handleTouchEnd Math_atan2 event w = Ret tt w.
Proof.
  intros Ht. js_unfold. rewrite Ht. split; reflexivity.
Qed.

Lemma C10_idle_move_and_end_do_nothing_witness :
  handleTouchMove atan2_on_axes (touchEvent [(3, 4)]) (initialWorld 7)
    = Ret tt (initialWorld 7) /\
  handleTouchEnd atan2_on_axes (touchEvent []) (initialWorld 7)
    = Ret tt (initialWorld 7).
Proof.
  split.
  - exact (proj1 (C10_idle_move_and_end_do_nothing atan2_on_axes
                    (touchEvent [(3, 4)]) (initialWorld 7) eq_refl)).
  - exact (proj2 (C10_idle_move_and_end_do_nothing atan2_on_axes
                    (touchEvent []) (initialWorld 7) eq_refl)).
Defined.

(** ** Swipes *)

Ltac ltb_flip :=
  repeat match goal with
         | H : (?a <? ?b) = true |- _ =>
             lazymatch goal with
             | _ : (b <? a) = false |- _ => fail
             | _ => pose proof (ltb_asym a b H)
             end
         end.

(** C2: with the shipped thresholds, a contact sequence that ends at least
    30 px from its start and within 500 ms makes [handleTouchEnd] dispatch
    one ["swipe"] whose direction follows the axis of greater absolute
    displacement and the sign along it, and whose velocity is the distance
    divided by the duration.  Start at (0, 0) at 0, move to (40, 0) at 50,
    end at 200: a swipe to the right of distance 40, duration 200 and
    velocity 0.2. *)
Theorem C2_swipe_direction_and_velocity
  (Math_atan2 : float -> float -> float) (event : TouchEvent) (w : World) :
  let ts := touchState w in
  let deltaX := currentX ts - startX ts in
  let deltaY := currentY ts - startY ts in
  let distance := sqrt (deltaX * deltaX + deltaY * deltaY) in
  let duration := now w - startTime ts in
  isTouching ts = true ->
  TAP_THRESHOLD (config w) = 10 ->
  SWIPE_THRESHOLD (config w) = 30 ->
  (30 <=? distance) = true ->
  (duration <? 500) = true ->
  (exists w' direction,
      handleTouchEnd Math_atan2 event w = Ret tt w' /\
      gestures (effects w') =
        gestures (effects w) ++
        [("swipe",
          SwipeData direction deltaX deltaY distance
            (Math_atan2 deltaY deltaX * (180 / Math_PI))
            (distance / duration) duration)] /\
      ((abs deltaY <? abs deltaX) = true ->
       ((0 <? deltaX) = true -> direction = "right") /\
       ((deltaX <? 0) = true -> direction = "left")) /\
      ((abs deltaX <? abs deltaY) = true ->
       ((0 <? deltaY) = true -> direction = "down") /\
       ((deltaY <? 0) = true -> direction = "up")))
  /\ gestures
       (effects
          (run Math_atan2
             [(0, TouchStart (touchEvent [(0, 0)]));
              (50, TouchMove (touchEvent [(40, 0)]));
              (200, TouchEnd (touchEvent []))]
             (initialWorld 0)))
     = [("swipe",
         SwipeData "right" 40 0 40 (Math_atan2 0 40 * (180 / Math_PI))
           0.2 200)].
Proof.
  intros ts deltaX deltaY distance duration Ht Htap Hswipe Hd Hdur.
  subst ts deltaX deltaY distance duration.
  split; [|reflexivity].
  js_world w. cbn in Ht, Htap, Hswipe, Hd, Hdur. subst.
  js_unfold. cbn.
  destruct longPressTimer0; cbn;
    rewrite (leb_30_not_ltb_10 _ Hd), Hd, Hdur; cbn.
  all: js_cases.
  all: eexists; eexists; split; [reflexivity|].
  all: split; [js_gestures; reflexivity|].
  all: split; intros Hmain; (split; intros Hsign); ltb_flip;
    reflexivity || congruence.
Qed.

Lemma C2_swipe_direction_and_velocity_witness :
  isTouching (touchState swipedRight) = true /\
  exists w' direction,
    handleTouchEnd atan2_on_axes (touchEvent []) swipedRight = Ret tt w' /\
    gestures (effects w') =
      [("swipe", SwipeData direction 40 0 40 0 0.2 200)] /\
    direction = "right".
Proof.
  split; [reflexivity|].
  destruct (C2_swipe_direction_and_velocity atan2_on_axes (touchEvent [])
              swipedRight eq_refl eq_refl eq_refl eq_refl eq_refl)
    as [[w' [direction [Hrun [Hg [Hx _]]]]] _].
  exists w', direction.
  split; [exact Hrun | split; [exact Hg | exact (proj1 (Hx eq_refl) eq_refl)]].
Defined.

(** ** Pinch and rotation *)

(** C6: a move with two contacts, in an active session with pinch
    detection on, sets the scale to the current distance of the contacts
    divided by the reference distance when that is positive and leaves the
    scale alone otherwise (in particular when it is zero), and dispatches
    one ["pinch"] with that scale and the midpoint of the contacts (then
    one ["rotate"] when rotation is on).  Contacts 100 px apart moving to
    150 px apart give the scale 1.5. *)
Theorem C6_pinch_scale
  (Math_atan2 : float -> float -> float) (touch1 touch2 : Touch)
  (tgt : bool) (w : World) :
  let event := mkTouchEvent [touch1; touch2] tgt in
  let dx := clientX touch2 - clientX touch1 in
  let dy := clientY touch2 - clientY touch1 in
  let currentDistance := sqrt (dx * dx + dy * dy) in
  let centerX := (clientX touch1 + clientX touch2) / 2 in
  let centerY := (clientY touch1 + clientY touch2) / 2 in
  let d0 := initialDistance (gestureState w) in
  isTouching (touchState w) = true ->
  ENABLE_PINCH_ZOOM (config w) = true ->
  (exists w',
      handleTouchMove Math_atan2 event w = Ret tt w' /\
      scale (gestureState w') =
        (if 0 <? d0 then currentDistance / d0 else scale (gestureState w)) /\
      ((d0 =? 0) = true -> scale (gestureState w') = scale (gestureState w)) /\
      initialDistance (gestureState w') = d0 /\
      gestures (effects w') =
        gestures (effects w) ++
        ("pinch", PinchData (scale (gestureState w')) centerX centerY)
        :: (if ENABLE_ROTATE (config w)
            then [("rotate",
                   RotateData (Math_atan2 dy dx - initialAngle (gestureState w))
                     centerX centerY)]
            else []))
  /\ gestures
       (effects
          (run Math_atan2
             [(0, TouchStart (touchEvent [(0, 0); (100, 0)]));
              (50, TouchMove (touchEvent [(0, 0); (150, 0)]))]
             (initialWorld 0)))
     = [("pinch", PinchData 1.5 75 0);
        ("rotate", RotateData (Math_atan2 0 150 - Math_atan2 0 100) 75 0)].
Proof.
  intros event dx dy currentDistance centerX centerY d0 Ht Hp.
  subst event dx dy currentDistance centerX centerY d0.
  split; [|reflexivity].
  js_world w. destruct touch1, touch2. cbn in Ht, Hp. subst.
  js_unfold. cbn.
  js_cases.
  all: eexists; split; [reflexivity|]; cbn.
  all: repeat split; try reflexivity.
  all: try (intros Hz; apply eqb_0_not_pos in Hz; congruence).
  all: js_gestures; reflexivity.
Qed.

Lemma C6_pinch_scale_witness :
  isTouching (touchState twoContactsDown) = true /\
  ENABLE_PINCH_ZOOM (config twoContactsDown) = true /\
  exists w',
    handleTouchMove atan2_on_axes (touchEvent [(0, 0); (150, 0)])
      twoContactsDown = Ret tt w' /\
    scale (gestureState w') = 1.5.
Proof.
  split; [reflexivity|]. split; [reflexivity|].
  destruct (C6_pinch_scale atan2_on_axes (mkTouch 0 0) (mkTouch 150 0) true
              twoContactsDown eq_refl eq_refl)
    as [[w' [Hrun [Hscale _]]] _].
  exists w'. split; [exact Hrun | exact Hscale].
Defined.

(** ** The long-press timer *)

(** C7: when the host runs the callback of a timer that is still armed and
    whose deadline has come, exactly one ["longpress"] is dispatched, with
    the position current at that moment and the configured long-press
    duration; both state records are left as they were (the session stays
    active), and the timer is gone, so that running it again does nothing.
    The shipped long-press duration is 500: a contact held from 1000 gives
    nothing at 1499 and one long press at 1500. *)
Theorem C7_long_press_fires_once
  (Math_atan2 : float -> float -> float) (id : positive) (tm : Timer)
  (w : World) :
  find (due (now w) id) (timers w) = Some tm ->
  (exists w',
      fireTimer id w = Ret tt w' /\
      gestures (effects w') =
        gestures (effects w) ++
        [("longpress",
          PointData (currentX (touchState w)) (currentY (touchState w))
            (LONG_PRESS_DURATION (config w)))] /\
      touchState w' = touchState w /\
      gestureState w' = gestureState w /\
      armed id w' = [] /\
      forall t, fireTimer id (with_now t w') = Ret tt (with_now t w'))
  /\ LONG_PRESS_DURATION TouchConfig = 500
  /\ (let held :=
        run Math_atan2
          [(1000, TouchStart (touchEvent [(0, 0)])); (1499, Timeout 1)]
          (initialWorld 0) in
      let fired := run Math_atan2 [(1500, Timeout 1); (1600, Timeout 1)] held in
      gestures (effects held) = [] /\
      gestures (effects fired) = [("longpress", PointData 0 0 500)] /\
      isTouching (touchState fired) = true).
Proof.
  intros Hdue.
  split; [|split; [reflexivity | cbv zeta; repeat split; reflexivity]].
  js_world w. cbn in Hdue.
  js_unfold. cbn. rewrite Hdue. cbn.
  js_cases.
  all: eexists; split; [reflexivity|]; cbn.
  all: split; [js_gestures; reflexivity|].
  all: split; [reflexivity|]. all: split; [reflexivity|].
  all: unfold armed; cbn.
  all: split; [apply filter_keeps_armed|].
  all: intros t;
    rewrite (find_due_none t id _ (filter_keeps_armed id timers0));
    reflexivity.
Qed.

Lemma C7_long_press_fires_once_witness :
  find (due (now heldToDeadline) 1) (timers heldToDeadline)
    = Some (mkTimer 1 1500 (touchEvent [(0, 0)])) /\
  exists w',
    fireTimer 1 heldToDeadline = Ret tt w' /\
    gestures (effects w') = [("longpress", PointData 0 0 500)] /\
    isTouching (touchState w') = true.
Proof.
  split; [reflexivity|].
  destruct (C7_long_press_fires_once atan2_on_axes 1
              (mkTimer 1 1500 (touchEvent [(0, 0)])) heldToDeadline eq_refl)
    as [[w' [Hrun [Hg [Hts _]]]] _].
  exists w'. split; [exact Hrun|]. split; [exact Hg|].
  rewrite Hts. reflexivity.
Defined.

(** ** What classification changes *)

(** [handleTap] stores a new [lastTapTime] and adds effects, none of them
    a long press; nothing else changes. *)
Lemma handleTap_frame (event : TouchEvent) (duration : float) (w : World) :
  exists v l,
    handleTap event duration w =
      Ret tt
        (mkWorld (set_lastTapTime v (touchState w)) (gestureState w)
           (config w) (now w) (timers w) (nextTimerId w) (effects w ++ l)) /\
    filter (named "longpress") (gestures l) = [].
Proof.
  js_world w. js_unfold. cbn. js_cases.
  all: rewrite <- ?app_assoc; cbn.
  all: eexists; eexists; split; reflexivity.
Qed.

(** [handleSwipe] only adds effects, none of them a long press. *)
Lemma handleSwipe_frame
  (Math_atan2 : float -> float -> float) (event : TouchEvent)
  (deltaX deltaY distance : float) (w : World) :
  exists l,
    handleSwipe Math_atan2 event deltaX deltaY distance w =
      Ret tt
        (mkWorld (touchState w) (gestureState w) (config w) (now w)
           (timers w) (nextTimerId w) (effects w ++ l)) /\
    filter (named "longpress") (gestures l) = [].
Proof.
  js_world w. js_unfold. cbn. js_cases.
  all: rewrite <- ?app_assoc; cbn.
  all: eexists; split; reflexivity.
Qed.

(** A two-contact move changes [gestureState] and adds effects, none of
    them a long press. *)
Lemma handleMultiTouchMove_frame
  (Math_atan2 : float -> float -> float) (touch1 touch2 : Touch)
  (more : list Touch) (tgt : bool) (w : World) :
  exists gs l,
    handleMultiTouchMove Math_atan2
      (mkTouchEvent (touch1 :: touch2 :: more) tgt) w =
      Ret tt
        (mkWorld (touchState w) gs (config w) (now w) (timers w)
           (nextTimerId w) (effects w ++ l)) /\
    filter (named "longpress") (gestures l) = [].
Proof.
  js_world w. destruct touch1, touch2. js_unfold. cbn. js_cases.
  all: rewrite <- ?app_assoc; cbn.
  all: eexists; eexists; split; reflexivity.
Qed.

(** The handlers unfolded down to the classifiers. *)
Ltac js_unfold_handler :=
  cbv beta delta
    [dispatch fireTimer handleTouchStart handleTouchMove handleTouchEnd
     handleTouchCancel handleMultiTouchStart
     triggerLongPress dispatchGestureEvent dispatchTouchEvent
     vibrate showTouchFeedback showLongPressFeedback reset updateConfig
     getConfig clearLongPressTimer clearTimeout setTimeout the Date_now when
     item emit assign assign_gesture read bind ret throw exec world_of
     with_touchState with_gestureState with_now with_timers with_effect].

Ltac js_frame :=
  match goal with
  | |- context [handleTap ?e ?d ?w] =>
      let v := fresh "v" in
      let l := fresh "l" in
      let H := fresh "H" in
      let Hl := fresh "Hl" in
      destruct (handleTap_frame e d w) as (v & l & H & Hl);
      rewrite H; clear H
  | |- context [handleSwipe ?a ?e ?x ?y ?d ?w] =>
      let l := fresh "l" in
      let H := fresh "H" in
      let Hl := fresh "Hl" in
      destruct (handleSwipe_frame a e x y d w) as (l & H & Hl);
      rewrite H; clear H
  | |- context [handleMultiTouchMove ?a (mkTouchEvent (?t1 :: ?t2 :: ?m) ?g)
                  ?w] =>
      let gs := fresh "gs" in
      let l := fresh "l" in
      let H := fresh "H" in
      let Hl := fresh "Hl" in
      destruct (handleMultiTouchMove_frame a t1 t2 m g w) as (gs & l & H & Hl);
      rewrite H; clear H
  end.

Ltac js_steps :=
  cbn -[handleTap handleSwipe handleMultiTouchMove];
  repeat (first [js_frame | js_case];
          cbn -[handleTap handleSwipe handleMultiTouchMove]).

(** ** What the end and the cancellation of a session leave behind *)




(** C9, as the code has it: [handleTouchCancel] returns with
    [longPressTimer] null and the timer that was held there no longer
    armed, [isTouching] false and [touchCount] 0; it dispatches no gesture
    event; the positions, the times and the whole [gestureState] are as
    they were. *)
Theorem C9_touchcancel_resets_flag_and_count_only
  (event : TouchEvent) (w : World) :
  exists w',
    handleTouchCancel event w = Ret tt w' /\
    longPressTimer (touchState w') = None /\
    (forall id, longPressTimer (touchState w) = Some id -> armed id w' = []) /\
    isTouching (touchState w') = false /\
    touchCount (touchState w') = 0%nat /\
    gestures (effects w') = gestures (effects w) /\
    startX (touchState w') = startX (touchState w) /\
    startY (touchState w') = startY (touchState w) /\
    startTime (touchState w') = startTime (touchState w) /\
    currentX (touchState w') = currentX (touchState w) /\
    currentY (touchState w') = currentY (touchState w) /\
    lastTapTime (touchState w') = lastTapTime (touchState w) /\
    gestureState w' = gestureState w.
Proof.
  js_world w.
  js_unfold. cbn.
  js_cases.
  all: eexists; split; [reflexivity|]; cbn.
  all: repeat split; try reflexivity.
  all: try (js_gestures; reflexivity).
  all: intros id Hid; try discriminate Hid.
  all: injection Hid as ->; apply filter_keeps_armed.
Qed.

(** C9, what does not hold: a cancelled two-contact sequence leaves the
    reference distance 100 and the scale 1.5 in [gestureState]. *)
Lemma C9_gesture_state_outlives_the_cancel :
  let w :=
    run atan2_on_axes [(100, TouchCancel (touchEvent []))] pinchedApart in
  touchCount (touchState w) = 0%nat /\
  isTouching (touchState w) = false /\
  gestures (effects w) = gestures (effects pinchedApart) /\
  gestureState w = mkGestureState 1.5 0 100 0 /\
  gestureState w <> initialGestureState.
Proof.
  cbv zeta. repeat (apply conj); try (vm_compute; reflexivity).
  intros H. apply (f_equal initialDistance) in H.
  apply (f_equal Prim2SF) in H. vm_compute in H. discriminate H.
Qed.

(** ** Arming the long-press timer *)

(** A statement that returns: its final world is the one [exec] gives. *)
Ltac js_returns :=
  match goal with
  | |- exists w', ?c ?w = Ret tt w' /\ _ =>
      exists (exec c w); split; [vm_compute; reflexivity|]
  end.

(** C4, as the code has it: [handleTouchStart] arms a new timer and keeps
    every timer that was armed before; only the newest handle is
    remembered in [longPressTimer].  When a second contact goes down 10 ms
    after the first, two timers are armed; the move and the end that
    follow disarm the second one only, and the first one dispatches a
    ["longpress"] at its deadline, after the session has ended. *)
Theorem C4_touchstart_keeps_earlier_timers
  (Math_atan2 : float -> float -> float) (touch : Touch) (more : list Touch)
  (tgt : bool) (w : World) :
  let event := mkTouchEvent (touch :: more) tgt in
  (exists w',
      handleTouchStart Math_atan2 event w = Ret tt w' /\
      timers w' =
        timers w ++
        [mkTimer (nextTimerId w) (now w + LONG_PRESS_DURATION (config w))
           event] /\
      longPressTimer (touchState w') = Some (nextTimerId w))
  /\ (let second := run Math_atan2 secondContactDown (initialWorld 0) in
      let late :=
        run Math_atan2
          [(1020, TouchMove (touchEvent [(0, 0); (60, 0)]));
           (1030, TouchEnd (touchEvent []));
           (1500, Timeout 1)]
          second in
      map timerId (timers second) = [1; 2]%positive /\
      longPressTimer (touchState second) = Some 2%positive /\
      isTouching (touchState late) = false /\
      fired "longpress" late = 1%nat).
Proof.
  intros event. subst event.
  split; [|cbv zeta; repeat (apply conj); vm_compute; reflexivity].
  js_world w. destruct touch.
  destruct more as [|[x2 y2] [|touch3 more]];
    destruct ENABLE_PINCH_ZOOM0, ENABLE_HAPTIC_FEEDBACK0,
      ENABLE_VISUAL_FEEDBACK0, tgt;
    js_returns; split; vm_compute; reflexivity.
Qed.

(** ** A session from start to end *)

(** The long presses dispatched so far, when the effects end in [l]. *)
Lemma fired_app (g : string) (w : World) (l : list Effect) (v : World) :
  effects v = effects w ++ l ->
  filter (named g) (gestures l) = [] ->
  fired g v = fired g w.
Proof.
  intros He Hl. unfold fired. rewrite He, gestures_app, filter_app, Hl.
  rewrite app_nil_r. reflexivity.
Qed.

(** The world a statement leaves, computed once all its tests are
    decided. *)
Ltac js_exec :=
  match goal with
  | |- context [exec ?c ?w] =>
      let r0 :=
        eval cbv beta delta
          [dispatch fireTimer handleTouchStart handleTouchMove handleTouchEnd
           handleTouchCancel handleMultiTouchStart handleMultiTouchMove
           handleTap handleSwipe triggerLongPress dispatchGestureEvent
           dispatchTouchEvent vibrate showTouchFeedback showLongPressFeedback
           reset updateConfig getConfig clearLongPressTimer clearTimeout
           setTimeout the Date_now when item emit assign assign_gesture read
           bind ret throw exec world_of with_touchState with_gestureState
           with_now with_timers with_effect]
        in (exec c w) in
      let r := eval cbn in r0 in
      let E := fresh "E" in
      assert (E : exec c w = r) by (vm_compute; reflexivity);
      rewrite E; clear E
  end.

Lemma start_arms
  (Math_atan2 : float -> float -> float) (t : float) (touch : Touch)
  (more : list Touch) (tgt : bool) (w : World) :
  timers w = [] ->
  let event := mkTouchEvent (touch :: more) tgt in
  let w' := exec (dispatch Math_atan2 t (TouchStart event)) w in
  timers w' =
    [mkTimer (nextTimerId w) (t + LONG_PRESS_DURATION (config w)) event] /\
  longPressTimer (touchState w') = Some (nextTimerId w) /\
  isTouching (touchState w') = true /\
  fired "longpress" w' = fired "longpress" w.
Proof.
  intros Hw event w'. subst event w'.
  js_world w. cbn in Hw. subst.
  destruct touch.
  destruct more as [|[x2 y2] [|touch3 more]];
    destruct ENABLE_PINCH_ZOOM0, ENABLE_HAPTIC_FEEDBACK0,
      ENABLE_VISUAL_FEEDBACK0, tgt;
    js_exec; repeat (apply conj); try reflexivity.
  all: eapply fired_app; [cbn; rewrite <- ?app_assoc; reflexivity|reflexivity].
Qed.

(** A timer that is not armed, or not due yet, does not run: the task
    only sees the clock advance. *)
Lemma timeout_none
  (Math_atan2 : float -> float -> float) (t : float) (id : positive)
  (w : World) :
  find (due t id) (timers w) = None ->
  exec (dispatch Math_atan2 t (Timeout id)) w = with_now t w.
Proof.
  intros H. js_unfold. cbn. rewrite H. reflexivity.
Qed.

Lemma run_app
  (Math_atan2 : float -> float -> float) (l1 l2 : list (float * Task))
  (w : World) :
  run Math_atan2 (l1 ++ l2) w = run Math_atan2 l2 (run Math_atan2 l1 w).
Proof.
  revert w. induction l1 as [|[t task] l1 IH]; intros w; simpl;
    [reflexivity | apply IH].
Qed.

(** With no timer armed, looking at timers changes nothing but the
    clock. *)
Lemma run_timeouts_quiet
  (Math_atan2 : float -> float -> float) (l : list (float * positive))
  (w : World) :
  timers w = [] ->
  let w' := run Math_atan2 (timeouts l) w in
  timers w' = [] /\ effects w' = effects w /\ touchState w' = touchState w.
Proof.
  revert w. induction l as [|[t id] l IH]; intros w Hw; simpl.
  - repeat (apply conj); (assumption || reflexivity).
  - rewrite timeout_none by (rewrite Hw; reflexivity).
    destruct (IH (with_now t w) Hw) as (H1 & H2 & H3).
    repeat (apply conj); assumption.
Qed.

(** With one timer armed, looking at timers before its deadline changes
    nothing but the clock. *)
Lemma run_timeouts_early
  (Math_atan2 : float -> float -> float) (tm : Timer)
  (l : list (float * positive)) (w : World) :
  timers w = [tm] ->
  Forall (fun p => (deadline tm <=? fst p) = false) l ->
  let w' := run Math_atan2 (timeouts l) w in
  timers w' = [tm] /\ effects w' = effects w /\ touchState w' = touchState w.
Proof.
  revert w. induction l as [|[t id] l IH]; intros w Hw Hl; simpl.
  - repeat (apply conj); (assumption || reflexivity).
  - inversion Hl as [|p l' Hp Hl']; subst. cbn in Hp.
    rewrite timeout_none.
    + destruct (IH (with_now t w) Hw Hl') as (H1 & H2 & H3).
      repeat (apply conj); assumption.
    + rewrite Hw. cbn. unfold due. rewrite Hp, andb_false_r. reflexivity.
Qed.

(** The long presses dispatched so far, after a handler that only added
    effects. *)
Ltac js_fired :=
  unfold fired; cbn;
  repeat rewrite gestures_app; repeat rewrite filter_app; cbn;
  repeat match goal with
         | H : filter _ (gestures _) = [] |- _ => rewrite H
         end;
  repeat rewrite app_nil_r; reflexivity.

(** A move in an active session forgets the long-press handle and disarms
    the timer it named; no long press is dispatched. *)
Lemma move_disarms
  (Math_atan2 : float -> float -> float) (touch : Touch) (more : list Touch)
  (tgt : bool) (v : World) :
  isTouching (touchState v) = true ->
  exists v',
    handleTouchMove Math_atan2 (mkTouchEvent (touch :: more) tgt) v
      = Ret tt v' /\
    longPressTimer (touchState v') = None /\
    timers v' =
      match longPressTimer (touchState v) with
      | Some id => filter (keeps id) (timers v)
      | None => timers v
      end /\
    fired "longpress" v' = fired "longpress" v.
Proof.
  intros Ht. js_world v. cbn in Ht. subst. destruct touch.
  destruct more as [|touch2 [|touch3 more]].
  all: js_unfold_handler; js_steps.
  all: eexists; split; [reflexivity|]; cbn.
  all: repeat (apply conj); try reflexivity.
  all: js_fired.
Qed.

(** With no timer armed, the end of a contact arms none and dispatches no
    long press. *)
Lemma end_quiet
  (Math_atan2 : float -> float -> float) (t : float) (event : TouchEvent)
  (w : World) :
  timers w = [] ->
  let w' := exec (dispatch Math_atan2 t (TouchEnd event)) w in
  timers w' = [] /\ fired "longpress" w' = fired "longpress" w.
Proof.
  intros Hw w'. subst w'. js_world w. cbn in Hw. subst.
  js_unfold_handler; js_steps.
  all: repeat (apply conj); try reflexivity.
  all: js_fired.
Qed.

Lemma fired_same_effects (g : string) (w v : World) :
  effects v = effects w -> fired g v = fired g w.
Proof. intros H. unfold fired. rewrite H. reflexivity. Qed.

(** X13: in an active session a move with at least one contact, whatever
    its position, returns with [longPressTimer] null and the timer it
    named disarmed, and dispatches no long press.  Consequently, from a
    world with no timer armed, a start, a move and an end dispatch no long
    press, however the host's looks at the timers are interleaved,
    provided those before the move come before the deadline (the clock
    reading of the start plus the long-press duration). *)
Theorem quiet_session_dispatches_no_long_press
  (Math_atan2 : float -> float -> float)
  (touch0 : Touch) (more0 : list Touch) (tgt0 : bool)
  (touch1 : Touch) (more1 : list Touch) (tgt1 : bool)
  (event2 : TouchEvent) (t0 t1 t2 : float)
  (before between after : list (float * positive)) (w : World) :
  let start := mkTouchEvent (touch0 :: more0) tgt0 in
  let move := mkTouchEvent (touch1 :: more1) tgt1 in
  timers w = [] ->
  Forall (fun p => (t0 + LONG_PRESS_DURATION (config w) <=? fst p) = false)
    before ->
  (forall v,
      isTouching (touchState v) = true ->
      exists v',
        handleTouchMove Math_atan2 move v = Ret tt v' /\
        longPressTimer (touchState v') = None /\
        (forall id,
            longPressTimer (touchState v) = Some id -> armed id v' = []) /\
        fired "longpress" v' = fired "longpress" v)
  /\ fired "longpress"
       (run Math_atan2
          ((t0, TouchStart start)
             :: timeouts before
             ++ (t1, TouchMove move)
             :: timeouts between
             ++ (t2, TouchEnd event2)
             :: timeouts after)
          w)
     = fired "longpress" w.
Proof.
  intros start move Hw Hbefore. split.
  - intros v Hv.
    destruct (move_disarms Math_atan2 touch1 more1 tgt1 v Hv)
      as (v' & Hrun & Hnone & Htimers & Hfired).
    exists v'. repeat (apply conj); try assumption.
    intros id Hid. rewrite Hid in Htimers. unfold armed. rewrite Htimers.
    apply filter_keeps_armed.
  - cbn [run].
    destruct (start_arms Math_atan2 t0 touch0 more0 tgt0 w Hw)
      as (S1 & S2 & S3 & S4).
    fold start in S1, S2, S3, S4.
    set (w1 := exec (dispatch Math_atan2 t0 (TouchStart start)) w) in *.
    rewrite run_app.
    destruct (run_timeouts_early Math_atan2 _ before w1 S1 Hbefore)
      as (B1 & B2 & B3).
    set (wb := run Math_atan2 (timeouts before) w1) in *.
    cbn [run].
    assert (Hv : isTouching (touchState (with_now t1 wb)) = true)
      by (cbn; rewrite B3; exact S3).
    destruct (move_disarms Math_atan2 touch1 more1 tgt1 _ Hv)
      as (v' & Hrun & Hnone & Htimers & Hfired).
    assert (Hm : exec (dispatch Math_atan2 t1 (TouchMove move)) wb = v').
    { unfold exec. change (dispatch Math_atan2 t1 (TouchMove move) wb)
        with (handleTouchMove Math_atan2 move (with_now t1 wb)).
      unfold move. rewrite Hrun. reflexivity. }
    rewrite Hm.
    assert (Hq : timers v' = []).
    { rewrite Htimers. cbn. rewrite B3, S2, B1. cbn.
      unfold keeps. cbn. rewrite Pos.eqb_refl. reflexivity. }
    rewrite run_app.
    destruct (run_timeouts_quiet Math_atan2 between v' Hq) as (M1 & M2 & _).
    set (wm := run Math_atan2 (timeouts between) v') in *.
    cbn [run].
    destruct (end_quiet Math_atan2 t2 event2 wm M1) as (E1 & E2).
    set (we := exec (dispatch Math_atan2 t2 (TouchEnd event2)) wm) in *.
    destruct (run_timeouts_quiet Math_atan2 after we E1) as (_ & A2 & _).
    rewrite (fired_same_effects _ _ _ A2), E2.
    rewrite (fired_same_effects _ _ _ M2), Hfired.
    rewrite <- S4.
    apply fired_same_effects. cbn. exact B2.
Qed.

Lemma quiet_session_dispatches_no_long_press_witness :
  timers (initialWorld 0) = [] /\
  fired "longpress"
    (run atan2_on_axes
       ((1000, TouchStart (touchEvent [(0, 0)]))
          :: timeouts [(1499, 1%positive)]
          ++ (1499, TouchMove (touchEvent [(0, 1)]))
          :: timeouts [(1500, 1%positive)]
          ++ (1700, TouchEnd (touchEvent []))
          :: timeouts [(1800, 1%positive)])
       (initialWorld 0))
  = 0%nat.
Proof.
  split; [reflexivity|].
  refine (proj2
            (quiet_session_dispatches_no_long_press atan2_on_axes (mkTouch 0 0) [] true
               (mkTouch 0 1) [] true (touchEvent []) 1000 1499 1700
               [(1499, 1%positive)] [(1500, 1%positive)] [(1800, 1%positive)]
               (initialWorld 0) eq_refl _)).
  constructor; [reflexivity | constructor].
Defined.

(** ** Two taps in a row *)

(** A start with one contact, run as a task at clock reading [t]. *)
Lemma one_touch_start
  (Math_atan2 : float -> float -> float) (t x y : float) (w : World) :
  let w' := exec (dispatch Math_atan2 t (TouchStart (touchEvent [(x, y)]))) w in
  touchState w' =
    mkTouchState x y t x y true 1 (lastTapTime (touchState w))
      (Some (nextTimerId w)) /\
  config w' = config w /\
  gestures (effects w') = gestures (effects w).
Proof.
  intros w'. subst w'. js_world w.
  destruct ENABLE_PINCH_ZOOM0, ENABLE_HAPTIC_FEEDBACK0,
    ENABLE_VISUAL_FEEDBACK0;
    js_exec; repeat (apply conj); try reflexivity; js_gestures; reflexivity.
Qed.

(** An end within the tap distance and within 300 ms, run as a task at
    clock reading [t]. *)
Lemma tap_end
  (Math_atan2 : float -> float -> float) (t : float) (event : TouchEvent)
  (w : World) :
  let ts := touchState w in
  let deltaX := currentX ts - startX ts in
  let deltaY := currentY ts - startY ts in
  isTouching ts = true ->
  (sqrt (deltaX * deltaX + deltaY * deltaY) <? TAP_THRESHOLD (config w))
    = true ->
  (t - startTime ts <? 300) = true ->
  let w' := exec (dispatch Math_atan2 t (TouchEnd event)) w in
  gestures (effects w') =
    gestures (effects w) ++
    [(if t - lastTapTime ts <? 300 then "doubletap" else "tap",
      PointData (currentX ts) (currentY ts) (t - startTime ts))] /\
  lastTapTime (touchState w') = (if t - lastTapTime ts <? 300 then 0 else t) /\
  config w' = config w.
Proof.
  intros ts deltaX deltaY Ht Hd Hdur w'.
  subst ts deltaX deltaY w'.
  js_world w. cbn in Ht, Hd, Hdur. subst.
  js_unfold. cbn.
  destruct longPressTimer0; cbn; rewrite Hd, Hdur; cbn.
  all: js_cases.
  all: repeat (apply conj); try reflexivity; js_gestures; reflexivity.
Qed.

Lemma two_taps
  (Math_atan2 : float -> float -> float) (t0 t1 t2 t3 : float) :
  (t1 - t0 <? 300) = true ->
  (t1 - 0 <? 300) = false ->
  (t3 - t2 <? 300) = true ->
  (t3 - t1 <? 300) = true ->
  gestures
    (effects
       (run Math_atan2
          [(t0, TouchStart (touchEvent [(0, 0)]));
           (t1, TouchEnd (touchEvent []));
           (t2, TouchStart (touchEvent [(0, 0)]));
           (t3, TouchEnd (touchEvent []))]
          (initialWorld 0)))
  = [("tap", PointData 0 0 (t1 - t0)); ("doubletap", PointData 0 0 (t3 - t2))].
Proof.
  intros H1 H2 H3 H4. cbn [run].
  destruct (one_touch_start Math_atan2 t0 0 0 (initialWorld 0))
    as (S1 & S2 & S3).
  set (w1 := exec (dispatch Math_atan2 t0 (TouchStart (touchEvent [(0, 0)])))
               (initialWorld 0)) in *.
  clearbody w1.
  destruct (tap_end Math_atan2 t1 (touchEvent []) w1) as (E1 & E2 & E3).
  { rewrite S1. reflexivity. }
  { rewrite S1, S2. reflexivity. }
  { rewrite S1. exact H1. }
  set (w2 := exec (dispatch Math_atan2 t1 (TouchEnd (touchEvent []))) w1) in *.
  clearbody w2.
  rewrite S1 in E1, E2. cbn in E1, E2. rewrite H2 in E1, E2.
  rewrite S3 in E1. cbn in E1.
  destruct (one_touch_start Math_atan2 t2 0 0 w2) as (T1 & T2 & T3).
  set (w3 := exec (dispatch Math_atan2 t2 (TouchStart (touchEvent [(0, 0)])))
               w2) in *.
  clearbody w3.
  rewrite E2 in T1.
  destruct (tap_end Math_atan2 t3 (touchEvent []) w3) as (F1 & _).
  { rewrite T1. reflexivity. }
  { rewrite T1, T2, E3, S2. reflexivity. }
  { rewrite T1. exact H3. }
  rewrite T1 in F1. cbn in F1. rewrite H4 in F1.
  rewrite F1, T3, E1. reflexivity.
Qed.

(** C1: a contact sequence that ends within the tap distance and within
    300 ms makes [handleTouchEnd] dispatch exactly one gesture event,
    ["doubletap"] when the clock is less than 300 ms past [lastTapTime]
    and ["tap"] otherwise, carrying the current position and the duration.
    The tap distance of the shipped configuration is 10.  From the initial
    state, two contacts at (0, 0) whose ends each come less than 300 ms
    after their starts, the first end at a clock reading not below 300
    and the second end less than 300 ms after the first, give a tap and
    then a double tap, each with its own duration; with the clock at
    1000, 1100, 1150 and 1200 these are a tap of duration 100 and a double
    tap of duration 50. *)
Theorem C1_tap_or_doubletap
  (Math_atan2 : float -> float -> float) (event : TouchEvent) (w : World) :
  let ts := touchState w in
  let deltaX := currentX ts - startX ts in
  let deltaY := currentY ts - startY ts in
  let duration := now w - startTime ts in
  isTouching ts = true ->
  (sqrt (deltaX * deltaX + deltaY * deltaY) <? TAP_THRESHOLD (config w))
    = true ->
  (duration <? 300) = true ->
  (exists w',
      handleTouchEnd Math_atan2 event w = Ret tt w' /\
      gestures (effects w') =
        gestures (effects w) ++
        [(if now w - lastTapTime ts <? 300 then "doubletap" else "tap",
          PointData (currentX ts) (currentY ts) duration)])
  /\ TAP_THRESHOLD TouchConfig = 10
  /\ (forall t0 t1 t2 t3 : float,
        (t1 - t0 <? 300) = true ->
        (t1 - 0 <? 300) = false ->
        (t3 - t2 <? 300) = true ->
        (t3 - t1 <? 300) = true ->
        gestures
          (effects
             (run Math_atan2
                [(t0, TouchStart (touchEvent [(0, 0)]));
                 (t1, TouchEnd (touchEvent []));
                 (t2, TouchStart (touchEvent [(0, 0)]));
                 (t3, TouchEnd (touchEvent []))]
                (initialWorld 0)))
        = [("tap", PointData 0 0 (t1 - t0));
           ("doubletap", PointData 0 0 (t3 - t2))])
  /\ gestures
       (effects
          (run Math_atan2
             [(1000, TouchStart (touchEvent [(0, 0)]));
              (1100, TouchEnd (touchEvent []));
              (1150, TouchStart (touchEvent [(0, 0)]));
              (1200, TouchEnd (touchEvent []))]
             (initialWorld 0)))
     = [("tap", PointData 0 0 100); ("doubletap", PointData 0 0 50)].
Proof.
  intros ts deltaX deltaY duration Ht Hd Hdur.
  subst ts deltaX deltaY duration.
  split;
    [|split;
      [reflexivity
      |split; [intros; apply two_taps; assumption | reflexivity]]].
  js_world w. cbn in Ht, Hd, Hdur. subst.
  js_unfold. cbn.
  destruct longPressTimer0; cbn; rewrite Hd, Hdur; cbn.
  all: js_cases.
  all: eexists; split; [reflexivity|]; js_gestures; reflexivity.
Qed.

Lemma C1_tap_or_doubletap_witness :
  isTouching (touchState firstTapDown) = true /\
  exists w',
    handleTouchEnd atan2_on_axes (touchEvent []) firstTapDown = Ret tt w' /\
    gestures (effects w') = [("tap", PointData 0 0 100)].
Proof.
  split; [reflexivity|].
  destruct (C1_tap_or_doubletap atan2_on_axes (touchEvent []) firstTapDown
              eq_refl eq_refl eq_refl) as [[w' [Hrun Hg]] _].
  exists w'. split; [exact Hrun | exact Hg].
Defined.

(** ** A move and the timers of earlier starts *)

(** C3, as the code has it: a move in an active session forgets the
    long-press handle and disarms the timers armed under that handle, and
    no others.  A timer left armed by an earlier start therefore survives
    the move: after a pinch whose first finger went down before the
    second, timer 1 is still armed when the session has ended, and during
    the next start, move and end, 200 ms in all, it dispatches a
    ["longpress"] after the move and before the swipe. *)
Theorem C3_move_clears_stored_handle_only
  (Math_atan2 : float -> float -> float) (touch : Touch) (more : list Touch)
  (tgt : bool) (v : World) :
  isTouching (touchState v) = true ->
  (exists v',
      handleTouchMove Math_atan2 (mkTouchEvent (touch :: more) tgt) v
        = Ret tt v' /\
      longPressTimer (touchState v') = None /\
      timers v' =
        match longPressTimer (touchState v) with
        | Some id => filter (keeps id) (timers v)
        | None => timers v
        end)
  /\ (let leaked := run Math_atan2 leakingPinch (initialWorld 0) in
      let swiped := run Math_atan2 quickSwipe leaked in
      isTouching (touchState leaked) = false /\
      map timerId (timers leaked) = [1%positive] /\
      map fst (gestures (effects swiped)) =
        map fst (gestures (effects leaked)) ++ ["longpress"; "swipe"]).
Proof.
  intros Hv. split.
  - destruct (move_disarms Math_atan2 touch more tgt v Hv)
      as (v' & Hrun & Hnone & Htimers & _).
    exists v'. repeat (apply conj); assumption.
  - cbv zeta. repeat (apply conj); vm_compute; reflexivity.
Qed.

Lemma C3_move_clears_stored_handle_only_witness :
  isTouching (touchState secondContactHeld) = true /\
  map timerId (timers secondContactHeld) = [1; 2]%positive /\
  exists v',
    handleTouchMove atan2_on_axes (touchEvent [(0, 0); (60, 0)])
      secondContactHeld = Ret tt v' /\
    map timerId (timers v') = [1%positive].
Proof.
  split; [reflexivity|]. split; [reflexivity|].
  destruct (C3_move_clears_stored_handle_only atan2_on_axes (mkTouch 0 0)
              [mkTouch 60 0] true secondContactHeld eq_refl)
    as [(v' & Hrun & _ & Htimers) _].
  exists v'. split; [exact Hrun|]. rewrite Htimers. reflexivity.
Defined.

(** * Further properties of the handlers *)

(** ** Events without contacts *)

(** X1: an event whose [touches] list is empty makes [handleTouchStart]
    throw before it has changed anything, and likewise [handleTouchMove]
    in an active session; run as a task, such a start only lets the clock
    advance. *)
Theorem touchstart_without_touches_throws
  (Math_atan2 : float -> float -> float) (event : TouchEvent) (w : World) :
  touches event = [] ->
  handleTouchStart Math_atan2 event w = Throw w /\
  (isTouching (touchState w) = true ->
   handleTouchMove Math_atan2 event w = Throw w) /\
  forall t, exec (dispatch Math_atan2 t (TouchStart event)) w = with_now t w.
Proof.
  intros He. destruct event as [l tgt]. cbn in He. subst l.
  repeat (apply conj).
  - reflexivity.
  - intros Ht. js_unfold. rewrite Ht. reflexivity.
  - intros t. reflexivity.
Qed.

Lemma touchstart_without_touches_throws_witness :
  handleTouchStart atan2_on_axes (touchEvent []) firstTapDown
    = Throw firstTapDown /\
  handleTouchMove atan2_on_axes (touchEvent []) firstTapDown
    = Throw firstTapDown.
Proof.
  destruct (touchstart_without_touches_throws atan2_on_axes (touchEvent [])
              firstTapDown eq_refl) as (Hs & Hm & _).
  split; [exact Hs | exact (Hm eq_refl)].
Defined.

(** ** Reset and configuration *)

(** X2: [reset] restores both state records to their initial literals but
    clears no timer: a long-press timer that is armed and due still runs
    after the reset, and reports the position (0, 0). *)
Theorem reset_keeps_armed_timers (id : positive) (tm : Timer) (w : World) :
  find (due (now w) id) (timers w) = Some tm ->
  exists w1 w2,
    reset w = Ret tt w1 /\
    touchState w1 = initialTouchState /\
    gestureState w1 = initialGestureState /\
    timers w1 = timers w /\
    fireTimer id w1 = Ret tt w2 /\
    gestures (effects w2) =
      gestures (effects w) ++
      [("longpress", PointData 0 0 (LONG_PRESS_DURATION (config w)))].
Proof.
  intros Hdue. js_world w. cbn in Hdue.
  match goal with
  | |- exists w1 w2, reset ?w = _ /\ _ =>
      exists (exec reset w), (exec (fireTimer id) (exec reset w))
  end.
  repeat (apply conj); try reflexivity.
  - js_unfold. cbn. rewrite Hdue. cbn. js_cases; reflexivity.
  - js_unfold. cbn. rewrite Hdue. cbn. js_cases; js_gestures; reflexivity.
Qed.

Lemma reset_keeps_armed_timers_witness :
  find (due (now heldToDeadline) 1) (timers heldToDeadline)
    = Some (mkTimer 1 1500 (touchEvent [(0, 0)])) /\
  exists w1 w2,
    reset heldToDeadline = Ret tt w1 /\
    isTouching (touchState w1) = false /\
    fireTimer 1 w1 = Ret tt w2 /\
    gestures (effects w2) = [("longpress", PointData 0 0 500)].
Proof.
  split; [reflexivity|].
  destruct (reset_keeps_armed_timers 1 (mkTimer 1 1500 (touchEvent [(0, 0)]))
              heldToDeadline eq_refl)
    as (w1 & w2 & Hreset & Hts & _ & _ & Hfire & Hg).
  exists w1, w2. repeat (apply conj); try assumption.
  rewrite Hts. reflexivity.
Defined.

(** X4: the duration a long press reports is the configured one when the
    timer runs, not the one it was armed with: after [updateConfig] has
    stored another [LONG_PRESS_DURATION], a timer armed earlier still runs
    at its old deadline and reports the new duration. *)
Theorem long_press_reports_duration_at_fire_time
  (id : positive) (tm : Timer) (d : float) (p : ConfigPatch) (w : World) :
  find (due (now w) id) (timers w) = Some tm ->
  patch_LONG_PRESS_DURATION p = Some d ->
  exists w',
    (updateConfig p ;; fireTimer id) w = Ret tt w' /\
    gestures (effects w') =
      gestures (effects w) ++
      [("longpress",
        PointData (currentX (touchState w)) (currentY (touchState w)) d)].
Proof.
  intros Hdue Hd. js_world w. cbn in Hdue.
  destruct p as [p1 p2 p3 [h|] [v|] p6 p7 [c|]]; cbn in Hd; subst p3.
  all: match goal with
       | |- exists w', ?c ?w = _ /\ _ => exists (exec c w)
       end.
  all: js_unfold; cbn; rewrite Hdue; cbn.
  all: js_cases.
  all: split; [reflexivity | js_gestures; reflexivity].
Qed.

Lemma long_press_reports_duration_at_fire_time_witness :
  exists w',
    (updateConfig
       (mkConfigPatch None None (Some 800) None None None None None) ;;
     fireTimer 1) heldToDeadline = Ret tt w' /\
    gestures (effects w') = [("longpress", PointData 0 0 800)].
Proof.
  exact (long_press_reports_duration_at_fire_time 1
           (mkTimer 1 1500 (touchEvent [(0, 0)])) 800
           (mkConfigPatch None None (Some 800) None None None None None)
           heldToDeadline eq_refl eq_refl).
Defined.

(** ** The start of a two-contact gesture *)

(** X5: with pinch detection on, a start with exactly two contacts stores
    fresh reference values in [gestureState], whatever it held before:
    scale 1, rotation 0, the distance and the angle of the two contacts.
    A start with one contact, or with three or more, leaves [gestureState]
    as it was. *)
Theorem two_contact_start_reinitialises_gesture_state
  (Math_atan2 : float -> float -> float) (touch1 touch2 touch3 : Touch)
  (more : list Touch) (tgt : bool) (w : World) :
  let dx := clientX touch2 - clientX touch1 in
  let dy := clientY touch2 - clientY touch1 in
  ENABLE_PINCH_ZOOM (config w) = true ->
  (exists w',
      handleTouchStart Math_atan2 (mkTouchEvent [touch1; touch2] tgt) w
        = Ret tt w' /\
      gestureState w' =
        mkGestureState 1 0 (sqrt (dx * dx + dy * dy)) (Math_atan2 dy dx) /\
      touchCount (touchState w') = 2%nat) /\
  (exists w',
      handleTouchStart Math_atan2 (mkTouchEvent [touch1] tgt) w = Ret tt w' /\
      gestureState w' = gestureState w) /\
  (exists w',
      handleTouchStart Math_atan2
        (mkTouchEvent (touch1 :: touch2 :: touch3 :: more) tgt) w
        = Ret tt w' /\
      gestureState w' = gestureState w).
Proof.
  intros dx dy Hp. subst dx dy.
  js_world w. cbn in Hp. subst. destruct touch1, touch2, touch3.
  destruct ENABLE_HAPTIC_FEEDBACK0, ENABLE_VISUAL_FEEDBACK0, tgt.
  all: repeat (apply conj); js_returns;
    repeat (apply conj); vm_compute; reflexivity.
Qed.

Lemma two_contact_start_reinitialises_gesture_state_witness :
  gestureState pinchedApart = mkGestureState 1.5 0 100 0 /\
  exists w',
    handleTouchStart atan2_on_axes (touchEvent [(0, 0); (30, 40)])
      pinchedApart = Ret tt w' /\
    gestureState w' = mkGestureState 1 0 50 (atan2_on_axes 40 30).
Proof.
  split; [reflexivity|].
  destruct (two_contact_start_reinitialises_gesture_state atan2_on_axes
              (mkTouch 0 0) (mkTouch 30 40) (mkTouch 0 0) [] true pinchedApart
              eq_refl)
    as [[w' [Hrun [Hgs _]]] _].
  exists w'. split; [exact Hrun | exact Hgs].
Defined.

(** ** Contacts that are no gesture *)

(** A duration that is not below 500 is not below 300 either. *)
Lemma not_ltb_500_not_ltb_300 (d : float) :
  (d <? 500) = false -> (d <? 300) = false.
Proof.
  rewrite !FloatAxioms.ltb_spec. unfold SFltb.
  change (Prim2SF 500) with (S754_finite false 8796093022208000 (-44)).
  change (Prim2SF 300) with (S754_finite false 5277655813324800 (-44)).
  destruct (Prim2SF d) as [s|s| |s m e]; cbn [SFcompare].
  - discriminate.
  - destruct s; [discriminate | reflexivity].
  - reflexivity.
  - destruct s; [discriminate|].
    destruct (Z.compare_spec e (-44)) as [H|H|H].
    + rewrite !Pos.compare_cont_spec.
      destruct (Pos.compare_spec m 8796093022208000) as [H1|H1|H1];
        cbn [Pos.switch_Eq]; try discriminate; intros _;
        destruct (Pos.compare_spec m 5277655813324800) as [H2|H2|H2];
        cbn [Pos.switch_Eq]; try reflexivity; exfalso.
      * subst m. vm_compute in H2. discriminate H2.
      * pose proof (Pos.lt_trans _ _ _ H1 H2) as H3.
        vm_compute in H3. discriminate H3.
    + discriminate.
    + reflexivity.
Qed.

(** X6: a contact that ends 500 ms or more after its start, or at a
    distance that is neither below the tap threshold nor at least the
    swipe threshold, is no gesture: [handleTouchEnd] dispatches no gesture
    event and leaves [lastTapTime] alone. *)
Theorem touchend_without_gesture
  (Math_atan2 : float -> float -> float) (event : TouchEvent) (w : World) :
  let ts := touchState w in
  let deltaX := currentX ts - startX ts in
  let deltaY := currentY ts - startY ts in
  let distance := sqrt (deltaX * deltaX + deltaY * deltaY) in
  let duration := now w - startTime ts in
  isTouching ts = true ->
  (duration <? 500) = false \/
  ((distance <? TAP_THRESHOLD (config w)) = false /\
   (SWIPE_THRESHOLD (config w) <=? distance) = false) ->
  exists w',
    handleTouchEnd Math_atan2 event w = Ret tt w' /\
    gestures (effects w') = gestures (effects w) /\
    lastTapTime (touchState w') = lastTapTime ts.
Proof.
  intros ts deltaX deltaY distance duration Ht Hno.
  subst ts deltaX deltaY distance duration.
  js_world w. cbn in Ht, Hno. subst.
  assert (Hc :
    ((sqrt
        ((currentX0 - startX0) * (currentX0 - startX0) +
         (currentY0 - startY0) * (currentY0 - startY0)) <? TAP_THRESHOLD0) &&
     (now0 - startTime0 <? 300) = false) /\
    ((SWIPE_THRESHOLD0 <=?
      sqrt
        ((currentX0 - startX0) * (currentX0 - startX0) +
         (currentY0 - startY0) * (currentY0 - startY0))) &&
     (now0 - startTime0 <? 500) = false)).
  { destruct Hno as [Hslow | [Hfar Hnear]].
    - rewrite Hslow, (not_ltb_500_not_ltb_300 _ Hslow), !andb_false_r.
      split; reflexivity.
    - rewrite Hfar, Hnear. split; reflexivity. }
  destruct Hc as [Hc1 Hc2].
  js_unfold_handler. cbn -[handleTap handleSwipe].
  destruct longPressTimer0; cbn -[handleTap handleSwipe];
    rewrite Hc1, Hc2; cbn.
  all: js_cases.
  all: eexists; split; [reflexivity|]; cbn.
  all: split; [js_gestures; reflexivity | reflexivity].
Qed.

Lemma touchend_without_gesture_witness :
  isTouching (touchState heldToDeadline) = true /\
  exists w',
    handleTouchEnd atan2_on_axes (touchEvent []) heldToDeadline = Ret tt w' /\
    gestures (effects w') = [].
Proof.
  split; [reflexivity|].
  destruct (touchend_without_gesture atan2_on_axes (touchEvent [])
              heldToDeadline eq_refl (or_introl eq_refl))
    as (w' & Hrun & Hg & _).
  exists w'. split; [exact Hrun | exact Hg].
Defined.

(** ** Diagonal swipes *)

(** Equal numbers are not ordered. *)
Lemma eqb_not_ltb (a b : float) : (a =? b) = true -> (b <? a) = false.
Proof.
  rewrite FloatAxioms.eqb_spec, FloatAxioms.ltb_spec. unfold SFeqb, SFltb.
  intros H.
  destruct (SFcompare (Prim2SF b) (Prim2SF a)) as [[| |]|] eqn:E;
    try reflexivity.
  rewrite (SFcompare_Lt_flip _ _ E) in H. discriminate H.
Qed.

(** X7: a swipe whose displacements along the two axes are equal in
    absolute value is reported as vertical: ["down"] when [deltaY] is
    positive and ["up"] otherwise. *)
Theorem diagonal_swipe_is_vertical
  (Math_atan2 : float -> float -> float) (event : TouchEvent)
  (deltaX deltaY distance : float) (w : World) :
  (abs deltaX =? abs deltaY) = true ->
  exists w',
    handleSwipe Math_atan2 event deltaX deltaY distance w = Ret tt w' /\
    gestures (effects w') =
      gestures (effects w) ++
      [("swipe",
        SwipeData (if 0 <? deltaY then "down" else "up") deltaX deltaY
          distance (Math_atan2 deltaY deltaX * (180 / Math_PI))
          (distance / (now w - startTime (touchState w)))
          (now w - startTime (touchState w)))].
Proof.
  intros Heq. apply eqb_not_ltb in Heq.
  js_world w. js_unfold. cbn. rewrite Heq.
  js_cases.
  all: eexists; split; [reflexivity|]; js_gestures; reflexivity.
Qed.

Lemma diagonal_swipe_is_vertical_witness :
  exists w',
    handleSwipe atan2_on_axes (touchEvent []) 30 (-30) 42 swipedRight
      = Ret tt w' /\
    map fst (gestures (effects w')) = ["swipe"] /\
    exists a v d,
      map snd (gestures (effects w')) = [SwipeData "up" 30 (-30) 42 a v d].
Proof.
  destruct (diagonal_swipe_is_vertical atan2_on_axes (touchEvent []) 30 (-30)
              42 swipedRight eq_refl) as (w' & Hrun & Hg).
  exists w'. split; [exact Hrun|]. rewrite Hg. split; [reflexivity|].
  eexists; eexists; eexists; reflexivity.
Defined.

(** ** The configuration along a run *)

Lemma start_shape
  (Math_atan2 : float -> float -> float) (t : float) (touch : Touch)
  (more : list Touch) (tgt : bool) (w : World) :
  let event := mkTouchEvent (touch :: more) tgt in
  let w' := exec (dispatch Math_atan2 t (TouchStart event)) w in
  config w' = config w /\
  nextTimerId w' = Pos.succ (nextTimerId w) /\
  timers w' =
    timers w ++
    [mkTimer (nextTimerId w) (t + LONG_PRESS_DURATION (config w)) event].
Proof.
  intros event w'. subst event w'. js_world w. destruct touch.
  destruct more as [|[x2 y2] [|touch3 more]];
    destruct ENABLE_PINCH_ZOOM0, ENABLE_HAPTIC_FEEDBACK0,
      ENABLE_VISUAL_FEEDBACK0, tgt;
    js_exec; repeat (apply conj); reflexivity.
Qed.

(** What one task does to the configuration, the next handle and the
    armed timers: a start arms one timer under the next handle; every
    other task leaves the timers alone or disarms those of one handle. *)
Lemma task_shape
  (Math_atan2 : float -> float -> float) (t : float) (task : Task)
  (w : World) :
  let w' := exec (dispatch Math_atan2 t task) w in
  config w' = config w /\
  ((nextTimerId w' = nextTimerId w /\
    (timers w' = timers w \/
     exists id, timers w' = filter (keeps id) (timers w))) \/
   (nextTimerId w' = Pos.succ (nextTimerId w) /\
    exists tm, timerId tm = nextTimerId w /\ timers w' = timers w ++ [tm])).
Proof.
  intros w'. subst w'.
  destruct task as [event|event|event|event|id].
  - destruct event as [[|touch more] tgt].
    + split; [reflexivity | left; split; [reflexivity | left; reflexivity]].
    + destruct (start_shape Math_atan2 t touch more tgt w) as (Hc & Hn & Ht).
      split; [exact Hc | right; split; [exact Hn|]].
      eexists. split; [|exact Ht]. reflexivity.
  - destruct event as [[|touch [|touch2 [|touch3 more]]] tgt];
      js_world w; js_unfold_handler; js_steps.
    all: split; [reflexivity | left; split; [reflexivity|]].
    all: first [left; reflexivity | right; eexists; reflexivity].
  - js_world w; js_unfold_handler; js_steps.
    all: split; [reflexivity | left; split; [reflexivity|]].
    all: first [left; reflexivity | right; eexists; reflexivity].
  - js_world w; js_unfold_handler; js_steps.
    all: split; [reflexivity | left; split; [reflexivity|]].
    all: first [left; reflexivity | right; eexists; reflexivity].
  - js_world w; js_unfold_handler; js_steps.
    all: split; [reflexivity | left; split; [reflexivity|]].
    all: first [left; reflexivity | right; eexists; reflexivity].
Qed.

(** X9: no touch handler and no timer callback writes to the
    configuration: after any schedule it is what it was. *)
Theorem run_keeps_config
  (Math_atan2 : float -> float -> float) (schedule : list (float * Task))
  (w : World) :
  config (run Math_atan2 schedule w) = config w.
Proof.
  revert w. induction schedule as [|[t task] rest IH]; intros w; simpl.
  - reflexivity.
  - rewrite IH. exact (proj1 (task_shape Math_atan2 t task w)).
Qed.

(** ** The feedback switches *)

Ltac js_filter :=
  cbn; repeat rewrite filter_app; cbn; repeat rewrite app_nil_r;
  reflexivity.

Lemma task_feedback
  (Math_atan2 : float -> float -> float) (t : float) (task : Task)
  (w : World) :
  let w' := exec (dispatch Math_atan2 t task) w in
  (ENABLE_HAPTIC_FEEDBACK (config w) = false ->
   filter is_vibration (effects w') = filter is_vibration (effects w)) /\
  (ENABLE_VISUAL_FEEDBACK (config w) = false ->
   filter is_visual (effects w') = filter is_visual (effects w)).
Proof.
  intros w'. subst w'.
  destruct task as [event|event|event|event|id].
  - destruct event as [[|[x1 y1] more] tgt]; [split; reflexivity|].
    js_world w.
    destruct more as [|[x2 y2] [|touch3 more]];
      destruct ENABLE_PINCH_ZOOM0, ENABLE_HAPTIC_FEEDBACK0,
        ENABLE_VISUAL_FEEDBACK0, tgt;
      js_exec; split; intros Hoff; try discriminate Hoff; js_filter.
  - destruct event as [[|touch [|touch2 [|touch3 more]]] tgt];
      js_world w; js_unfold; cbn; js_cases.
    all: split; intros Hoff; js_filter.
  - js_world w; js_unfold; cbn; js_cases.
    all: split; intros Hoff; try discriminate Hoff; js_filter.
  - js_world w; js_unfold; cbn; js_cases.
    all: split; intros Hoff; js_filter.
  - js_world w; js_unfold; cbn; js_cases.
    all: split; intros Hoff; try discriminate Hoff; js_filter.
Qed.

(** X10: with [ENABLE_HAPTIC_FEEDBACK] off, no schedule of touch events
    and timer callbacks ever asks the device to vibrate. *)
Theorem haptic_off_never_vibrates
  (Math_atan2 : float -> float -> float) (schedule : list (float * Task))
  (w : World) :
  ENABLE_HAPTIC_FEEDBACK (config w) = false ->
  filter is_vibration (effects (run Math_atan2 schedule w)) =
    filter is_vibration (effects w).
Proof.
  revert w. induction schedule as [|[t task] rest IH]; intros w Hoff; simpl.
  - reflexivity.
  - rewrite IH.
    + exact (proj1 (task_feedback Math_atan2 t task w) Hoff).
    + rewrite (proj1 (task_shape Math_atan2 t task w)). exact Hoff.
Qed.

Lemma haptic_off_never_vibrates_witness :
  filter is_vibration
    (effects
       (run atan2_on_axes threeTaps
          (exec
             (updateConfig
                (mkConfigPatch None None None (Some false) None None None
                   None))
             (initialWorld 0))))
  = [].
Proof.
  exact (haptic_off_never_vibrates atan2_on_axes threeTaps
           (exec
              (updateConfig
                 (mkConfigPatch None None None (Some false) None None None
                    None))
              (initialWorld 0))
           eq_refl).
Defined.

(** X11: with [ENABLE_VISUAL_FEEDBACK] off, no schedule of touch events
    and timer callbacks ever adds a feedback element to the document. *)
Theorem visual_off_never_shows_feedback
  (Math_atan2 : float -> float -> float) (schedule : list (float * Task))
  (w : World) :
  ENABLE_VISUAL_FEEDBACK (config w) = false ->
  filter is_visual (effects (run Math_atan2 schedule w)) =
    filter is_visual (effects w).
Proof.
  revert w. induction schedule as [|[t task] rest IH]; intros w Hoff; simpl.
  - reflexivity.
  - rewrite IH.
    + exact (proj2 (task_feedback Math_atan2 t task w) Hoff).
    + rewrite (proj1 (task_shape Math_atan2 t task w)). exact Hoff.
Qed.

Lemma visual_off_never_shows_feedback_witness :
  filter is_visual
    (effects
       (run atan2_on_axes
          [(1000, TouchStart (touchEvent [(0, 0)])); (1500, Timeout 1)]
          (exec
             (updateConfig
                (mkConfigPatch None None None None (Some false) None None
                   None))
             (initialWorld 0))))
  = [].
Proof.
  exact (visual_off_never_shows_feedback atan2_on_axes
           [(1000, TouchStart (touchEvent [(0, 0)])); (1500, Timeout 1)]
           (exec
              (updateConfig
                 (mkConfigPatch None None None None (Some false) None None
                    None))
              (initialWorld 0))
           eq_refl).
Defined.

(** ** One end, at most one gesture *)

Lemma gestures_snoc_none (l : list Effect) (e : Effect) :
  gesture_of e = None -> gestures (l ++ [e]) = gestures l.
Proof.
  intros H. rewrite gestures_app. cbn. rewrite H. apply app_nil_r.
Qed.

Lemma gestures_snoc_some (l : list Effect) (e : Effect)
  (g : string * GestureData) :
  gesture_of e = Some g -> gestures (l ++ [e]) = gestures l ++ [g].
Proof.
  intros H. rewrite gestures_app. cbn. rewrite H. reflexivity.
Qed.

(** X12: [handleTouchEnd] never throws, whatever event it is given, and
    dispatches at most one gesture event, which is then a tap, a double
    tap or a swipe. *)
Theorem touchend_dispatches_at_most_one_gesture
  (Math_atan2 : float -> float -> float) (event : TouchEvent) (w : World) :
  exists w' l,
    handleTouchEnd Math_atan2 event w = Ret tt w' /\
    gestures (effects w') = gestures (effects w) ++ l /\
    (l = [] \/
     exists gestureType data,
       l = [(gestureType, data)] /\
       In gestureType ["tap"; "doubletap"; "swipe"]).
Proof.
  js_world w. js_unfold. cbn. js_cases.
  all: eexists; eexists; split; [reflexivity|]; cbn.
  all: repeat first
         [ rewrite gestures_snoc_none by reflexivity
         | erewrite gestures_snoc_some by reflexivity ].
  all: split; [first [reflexivity | symmetry; apply app_nil_r]|].
  all: first
         [ left; reflexivity
         | right; eexists; eexists; split; [reflexivity | cbn; tauto] ].
Qed.
